(** * Verification of the price parser, product model, classifier,
      single-product extractor and cache key of coleta_produtos.

    Source files embedded here:
      - src/scrapers/utils/validators.py   (Product, DataProcessor,
                                            ProductClassifier)
      - src/scrapers/engines/playwright_engine.py
                                           (_extract_single_product,
                                            _filter_relevant_products,
                                            _find_category_id)
      - src/scrapers/config.py             (CATEGORIES)
      - src/scrapers/utils/cache.py        (_generate_cache_key)

    Modelling conventions.
      - Python [str] values are Rocq [string]s holding their UTF-8 bytes.
        Regular-expression classes such as [\d] and [\w] are modelled by
        their ASCII members; [str.split()] (in [py_split]) splits on all
        the whitespace characters of [str.isspace()], and [str.lower()]
        (in [py_lower]) is exact on ASCII and Latin-1 text.
      - Python [float] values are modelled by the exact rationals [Q] they
        denote: [float(s)] on a decimal string is the rational written in
        [s] (the double Python returns is the rounding of it, so equal
        rationals give equal doubles; overflow to [inf] is not modelled).
      - An exception that the source catches (or a pydantic
        [ValidationError]) is [None] of an [option]. *)

From Stdlib Require Import String Ascii List Bool ZArith QArith Qround Lia.
From Stdlib Require Import Permutation Sorting.Permutation DecimalString Lqa.
Import ListNotations.
Open Scope string_scope.

#[local] Arguments Ascii.eqb : simpl never.

(** ** Character and string helpers (Python [str] methods) *)

Definition char_code (c : ascii) : nat := nat_of_ascii c.

Definition is_digit (c : ascii) : bool :=
  (48 <=? char_code c)%nat && (char_code c <=? 57)%nat.

(** [c in s] for a one-character needle. *)
Fixpoint has_char (c : ascii) (s : string) : bool :=
  match s with
  | EmptyString => false
  | String d r => Ascii.eqb c d || has_char c r
  end.

(** [re.sub(r'[^...]', '', s)]: keep the characters satisfying [keep]. *)
Fixpoint filter_str (keep : ascii -> bool) (s : string) : string :=
  match s with
  | EmptyString => EmptyString
  | String d r => if keep d then String d (filter_str keep r)
                  else filter_str keep r
  end.

(** [s.replace(c, '')]. *)
Definition remove_char (c : ascii) (s : string) : string :=
  filter_str (fun d => negb (Ascii.eqb c d)) s.

(** [s.replace(c, d)] for one-character [c] and [d]. *)
Fixpoint replace_char (c d : ascii) (s : string) : string :=
  match s with
  | EmptyString => EmptyString
  | String e r => String (if Ascii.eqb c e then d else e) (replace_char c d r)
  end.

(** [s.rfind(c)]: the last index of [c] in [s], [-1] when absent. *)
Fixpoint rfind_from (c : ascii) (s : string) (i : Z) (acc : Z) : Z :=
  match s with
  | EmptyString => acc
  | String d r => rfind_from c r (i + 1) (if Ascii.eqb c d then i else acc)
  end.

Definition rfind (c : ascii) (s : string) : Z := rfind_from c s 0 (-1).

(** [s.split(c)] for a one-character separator: always at least one part. *)
Fixpoint split_char (c : ascii) (s : string) : list string :=
  match s with
  | EmptyString => [EmptyString]
  | String d r =>
      if Ascii.eqb c d then EmptyString :: split_char c r
      else match split_char c r with
           | p :: ps => String d p :: ps
           | [] => [String d EmptyString]
           end
  end.

Definition all_digits (s : string) : bool :=
  forallb is_digit (list_ascii_of_string s).

(** The value of a string of decimal digits (most significant first). *)
Fixpoint digits_value_acc (s : string) (acc : Z) : Z :=
  match s with
  | EmptyString => acc
  | String d r =>
      digits_value_acc r (acc * 10 + Z.of_nat (char_code d - 48))
  end.

Definition digits_value (s : string) : Z := digits_value_acc s 0.

(** [int(s)] on the strings [clean_price] hands it, which contain only
    digits: it succeeds on a non-empty digit string and raises
    [ValueError] (here [None]) otherwise, e.g. on [""]. *)
Definition py_int (s : string) : option Z :=
  if (String.length s =? 0)%nat then None
  else if all_digits s then Some (digits_value s) else None.

(** [float(s)] on the strings [clean_price] hands it (digits, ',' and '.'
    only): Python's grammar [digits ['.' [digits]] | '.' digits]; any
    other such string raises [ValueError].  The value is the decimal
    number written. *)
Definition py_float (s : string) : option Q :=
  match split_char "." s with
  | [ip] =>
      if negb (String.length ip =? 0)%nat && all_digits ip
      then Some (inject_Z (digits_value ip)) else None
  | [ip; fp] =>
      if negb ((String.length ip + String.length fp) =? 0)%nat
         && all_digits ip && all_digits fp
      then Some (Qmake (digits_value (ip ++ fp))
                       (Pos.of_nat (10 ^ String.length fp)))
      else None
  | _ => None
  end.

(** ** PriceParser: [DataProcessor.clean_price] (validators.py 73-135) *)

Definition is_price_char (c : ascii) : bool :=
  is_digit c || Ascii.eqb c "," || Ascii.eqb c ".".

(** [re.sub(r'[^\d,.]', '', original_text)] *)
Definition clean_text_of (s : string) : string := filter_str is_price_char s.

Definition clean_price (price_text : string) : option Q :=
  if (String.length price_text =? 0)%nat then None
  else
    let clean_text := clean_text_of price_text in
    if (String.length clean_text =? 0)%nat then None
    else if has_char "," clean_text && has_char "." clean_text then
      if (rfind "," clean_text >? rfind "." clean_text)%Z
      then py_float (replace_char "," "." (remove_char "." clean_text))
      else py_float (remove_char "," clean_text)
    else if has_char "," clean_text then
      match split_char "," clean_text with
      | p0 :: _ =>
          if (3 <=? String.length p0)%nat
          then py_float (replace_char "," "." clean_text)
          else py_float (replace_char "," "." clean_text)
      | [] => py_float (replace_char "," "." clean_text)
      end
    else if has_char "." clean_text then
      let parts := split_char "." clean_text in
      match parts with
      | [p0; p1] =>
          if (String.length p1 <=? 2)%nat then
            match py_int p0 with
            | None => None
            | Some n =>
                if (n <? 100)%Z then py_float clean_text
                else py_float (remove_char "." clean_text)
            end
          else py_float (remove_char "." clean_text)
      | _ => py_float (remove_char "." clean_text)
      end
    else py_float clean_text.

Example clean_price_ex1 : clean_price "R$ 1.299,99" = Some (129999 # 100).
Proof. reflexivity. Qed.
Example clean_price_ex2 : clean_price ".5" = None.
Proof. reflexivity. Qed.
Example clean_price_ex3 : clean_price "99.90" = Some (9990 # 100).
Proof. reflexivity. Qed.
Example clean_price_ex4 : clean_price "123.45" = Some (12345 # 1).
Proof. reflexivity. Qed.

(** A relation for comparing optional parse results by value. *)
Definition opt_Qeq (a b : option Q) : Prop :=
  match a, b with
  | Some x, Some y => x == y
  | None, None => True
  | _, _ => False
  end.

(** The number written "i.f" with integer digits [i] and fraction digits
    [f]. *)
Definition decimal_value (i f : string) : Q :=
  inject_Z (digits_value i)
  + inject_Z (digits_value f) / inject_Z (10 ^ Z.of_nat (String.length f)).

(** Characters of a cleaned price string without commas. *)
Definition dot_or_digit (c : ascii) : bool := is_digit c || Ascii.eqb c ".".

Definition dots_digits (t : string) : bool :=
  forallb dot_or_digit (list_ascii_of_string t).

Lemma clean_text_no_comma s :
  has_char "," (clean_text_of s) = false -> dots_digits (clean_text_of s) = true.
Proof.
  unfold clean_text_of, dots_digits.
  induction s as [|d r IH]; cbn [filter_str]; auto.
  destruct (is_price_char d) eqn:Hd; cbn [has_char list_ascii_of_string forallb]; auto.
  intros H. apply orb_false_iff in H as [H1 H2].
  rewrite (IH H2), andb_true_r.
  unfold is_price_char in Hd; unfold dot_or_digit.
  rewrite Ascii.eqb_sym in H1. rewrite H1, orb_false_r in Hd. exact Hd.
Qed.

Lemma split_char_all_digits t :
  dots_digits t = true -> Forall (fun p => all_digits p = true) (split_char "." t).
Proof.
  unfold dots_digits, all_digits.
  induction t as [|d r IH]; simpl; intros H.
  - repeat constructor.
  - apply andb_true_iff in H as [Hd Hr].
    specialize (IH Hr).
    destruct (Ascii.eqb "." d) eqn:E.
    + constructor; [reflexivity | exact IH].
    + unfold dot_or_digit in Hd. rewrite Ascii.eqb_sym, E, orb_false_r in Hd.
      destruct (split_char "." r) as [|p ps]; inversion IH; subst.
      * constructor; simpl; [rewrite Hd; reflexivity | constructor].
      * constructor; simpl; [rewrite Hd; assumption | assumption].
Qed.

Lemma split_char_concat c t :
  fold_right String.append EmptyString (split_char c t) = remove_char c t.
Proof.
  unfold remove_char.
  induction t as [|d r IH]; simpl; auto.
  destruct (Ascii.eqb c d); simpl.
  - exact IH.
  - destruct (split_char c r) as [|p ps]; simpl in *; rewrite <- IH; reflexivity.
Qed.

Lemma has_char_remove c t : has_char c (remove_char c t) = false.
Proof.
  unfold remove_char.
  induction t as [|d r IH]; simpl; auto.
  destruct (Ascii.eqb c d) eqn:E; simpl; auto.
  rewrite E; exact IH.
Qed.

Lemma split_char_absent c u : has_char c u = false -> split_char c u = [u].
Proof.
  induction u as [|d r IH]; simpl; auto.
  intros H. apply orb_false_iff in H as [H1 H2].
  rewrite H1, (IH H2). reflexivity.
Qed.

Lemma all_digits_remove t : dots_digits t = true -> all_digits (remove_char "." t) = true.
Proof.
  unfold dots_digits, all_digits, remove_char.
  induction t as [|d r IH]; simpl; auto.
  intros H. apply andb_true_iff in H as [Hd Hr].
  destruct (Ascii.eqb "." d) eqn:E; simpl; auto.
  unfold dot_or_digit in Hd. rewrite Ascii.eqb_sym, E, orb_false_r in Hd.
  rewrite Hd; simpl; auto.
Qed.

Lemma all_digits_no_dot u : all_digits u = true -> has_char "." u = false.
Proof.
  unfold all_digits.
  induction u as [|d r IH]; simpl; auto.
  intros H. apply andb_true_iff in H as [Hd Hr].
  rewrite (IH Hr), orb_false_r.
  destruct (Ascii.eqb "." d) eqn:E; auto.
  apply Ascii.eqb_eq in E; subst; discriminate.
Qed.

(** [float] of a digit string is its value, [ValueError] when empty. *)
Lemma py_float_digits u :
  all_digits u = true ->
  py_float u = if (String.length u =? 0)%nat then None
               else Some (inject_Z (digits_value u)).
Proof.
  intros H. unfold py_float.
  rewrite (split_char_absent _ _ (all_digits_no_dot _ H)), H.
  destruct (String.length u =? 0)%nat; reflexivity.
Qed.

Lemma digits_value_acc_shift f a :
  digits_value_acc f a = (a * 10 ^ Z.of_nat (String.length f) + digits_value_acc f 0)%Z.
Proof.
  revert a; induction f as [|d r IH]; intros a; cbn [digits_value_acc String.length].
  - cbn. lia.
  - rewrite IH. rewrite (IH (0 * 10 + _)%Z).
    rewrite Nat2Z.inj_succ, Z.pow_succ_r by lia. lia.
Qed.

Lemma digits_value_app i f :
  digits_value (i ++ f) =
  (digits_value i * 10 ^ Z.of_nat (String.length f) + digits_value f)%Z.
Proof.
  unfold digits_value.
  assert (G : forall a, digits_value_acc (i ++ f) a = digits_value_acc f (digits_value_acc i a)).
  { induction i as [|d r IH]; simpl; auto. }
  rewrite G. apply digits_value_acc_shift.
Qed.

Lemma pos_of_nat_pow10 n :
  Z.pos (Pos.of_nat (10 ^ n)) = (10 ^ Z.of_nat n)%Z.
Proof.
  assert (Hn : (10 ^ n <> 0)%nat) by (apply Nat.pow_nonzero; lia).
  rewrite <- positive_nat_Z, Nat2Pos.id by exact Hn.
  rewrite Nat2Z.inj_pow. reflexivity.
Qed.

Lemma py_float_decimal t i f :
  split_char "." t = [i; f] -> all_digits i = true -> all_digits f = true ->
  i <> EmptyString ->
  opt_Qeq (py_float t) (Some (decimal_value i f)).
Proof.
  intros Hs Hi Hf Hne. unfold py_float. rewrite Hs, Hi, Hf.
  assert (Hl : (String.length i + String.length f =? 0)%nat = false)
    by (destruct i; [congruence | reflexivity]).
  rewrite Hl. cbn [negb andb opt_Qeq].
  unfold decimal_value. rewrite digits_value_app.
  unfold Qeq, Qdiv, Qplus, Qmult, Qinv; simpl.
  rewrite pos_of_nat_pow10.
  assert (Hp : (0 < 10 ^ Z.of_nat (String.length f))%Z) by (apply Z.pow_pos_nonneg; lia).
  destruct (10 ^ Z.of_nat (String.length f))%Z as [|p|p] eqn:E; try lia.
  simpl. nia.
Qed.

Lemma string_app_nil_r (u : string) : u ++ EmptyString = u.
Proof. induction u as [|d r IH]; simpl; [reflexivity | rewrite IH; reflexivity]. Qed.

Lemma string_length_app (u v : string) :
  String.length (u ++ v) = (String.length u + String.length v)%nat.
Proof. induction u as [|d r IH]; simpl; [reflexivity | rewrite IH; reflexivity]. Qed.

Lemma clean_price_dot_branch s :
  has_char "." (clean_text_of s) = true -> has_char "," (clean_text_of s) = false ->
  clean_price s =
  match split_char "." (clean_text_of s) with
  | [p0; p1] =>
      if (String.length p1 <=? 2)%nat then
        match py_int p0 with
        | None => None
        | Some n =>
            if (n <? 100)%Z then py_float (clean_text_of s)
            else py_float (remove_char "." (clean_text_of s))
        end
      else py_float (remove_char "." (clean_text_of s))
  | _ => py_float (remove_char "." (clean_text_of s))
  end.
Proof.
  intros Hd Hc. unfold clean_price.
  assert (Ht : (String.length (clean_text_of s) =? 0)%nat = false).
  { destruct (clean_text_of s); [discriminate | reflexivity]. }
  assert (Hs : (String.length s =? 0)%nat = false).
  { destruct s; [discriminate | reflexivity]. }
  rewrite Hs, Ht, Hc, Hd. reflexivity.
Qed.

Lemma py_float_removed t :
  dots_digits t = true ->
  py_float (remove_char "." t) =
  if (String.length (remove_char "." t) =? 0)%nat then None
  else Some (inject_Z (digits_value (remove_char "." t))).
Proof. intros H. apply py_float_digits, all_digits_remove, H. Qed.

(** ** Claims on [clean_price] *)

(** C5 (as amended).  Let [t] be the cleaned text of the input, with at
    least one '.' and no ','.  With exactly one '.', a fraction of at most
    2 digits and a non-empty integer part worth less than 100, the result
    is the decimal number written; with exactly one '.', a fraction of at
    most 2 digits and an empty integer part ([int("")] raises), the
    result is null; with exactly one '.' and a fraction of more than 2
    digits or an integer part worth 100 or more, the result is the value
    of the digits left once every '.' is removed; with more than one '.',
    it is that value too, or null when no digit remains. *)
Theorem clean_price_dot_only (s : string) :
  let t := clean_text_of s in
  has_char "." t = true -> has_char "," t = false ->
  (forall i f, split_char "." t = [i; f] -> (String.length f <= 2)%nat ->
     i <> EmptyString -> (digits_value i < 100)%Z ->
     opt_Qeq (clean_price s) (Some (decimal_value i f))) /\
  (forall f, split_char "." t = [EmptyString; f] -> (String.length f <= 2)%nat ->
     clean_price s = None) /\
  (forall i f, split_char "." t = [i; f] ->
     ((2 < String.length f)%nat \/ (i <> EmptyString /\ (100 <= digits_value i)%Z)) ->
     clean_price s = Some (inject_Z (digits_value (remove_char "." t)))) /\
  ((3 <= length (split_char "." t))%nat ->
     clean_price s =
     if (String.length (remove_char "." t) =? 0)%nat then None
     else Some (inject_Z (digits_value (remove_char "." t)))).
Proof.
  intros t Hd Hc.
  pose proof (clean_text_no_comma s Hc) as Hdd.
  pose proof (split_char_all_digits _ Hdd) as Hall.
  rewrite (clean_price_dot_branch s Hd Hc). fold t in Hdd, Hall |- *.
  assert (Hrem : forall i f, split_char "." t = [i; f] ->
            remove_char "." t = i ++ f).
  { intros i f Hs. rewrite <- split_char_concat, Hs. cbn [fold_right].
    rewrite string_app_nil_r. reflexivity. }
  split; [|split; [|split]].
  - intros i f Hs Hf Hi Hv. rewrite Hs in Hall |- *.
    inversion Hall as [|? ? Hi' Hrest]; subst. inversion Hrest as [|? ? Hf' _]; subst.
    apply Nat.leb_le in Hf. rewrite Hf.
    unfold py_int. rewrite Hi'.
    assert (Hl : (String.length i =? 0)%nat = false)
      by (destruct i; [congruence | reflexivity]).
    rewrite Hl. apply Z.ltb_lt in Hv. rewrite Hv.
    apply py_float_decimal; assumption.
  - intros f Hs Hf. rewrite Hs. apply Nat.leb_le in Hf. rewrite Hf. reflexivity.
  - intros i f Hs Hcase. rewrite Hs in Hall |- *.
    inversion Hall as [|? ? Hi' Hrest]; subst.
    rewrite (py_float_removed _ Hdd), (Hrem i f Hs).
    assert (Hl : (String.length (i ++ f) =? 0)%nat = false).
    { rewrite string_length_app.
      destruct Hcase as [H2|[Hi _]]; [|destruct i; [congruence|]]; 
        apply Nat.eqb_neq; simpl; lia. }
    rewrite Hl.
    destruct Hcase as [H2|[Hi Hv]].
    + assert (Hf : (String.length f <=? 2)%nat = false) by (apply Nat.leb_gt; lia).
      rewrite Hf. reflexivity.
    + destruct (String.length f <=? 2)%nat.
      * unfold py_int. rewrite Hi'.
        assert (Hl' : (String.length i =? 0)%nat = false)
          by (destruct i; [congruence | reflexivity]).
        rewrite Hl'. assert (Hv' : (digits_value i <? 100)%Z = false) by (apply Z.ltb_ge; lia).
        rewrite Hv'. reflexivity.
      * reflexivity.
  - intros H3.
    destruct (split_char "." t) as [|p0 [|p1 [|p2 ps]]]; simpl in H3; try lia.
    apply py_float_removed, Hdd.
Qed.

Lemma clean_price_dot_only_witness :
  has_char "." (clean_text_of "1.049") = true /\
  has_char "," (clean_text_of "1.049") = false /\
  clean_price "1.049" = Some (inject_Z 1049).
Proof.
  split; [reflexivity | split; [reflexivity |]].
  exact (proj1 (proj2 (proj2 (clean_price_dot_only "1.049" eq_refl eq_refl)))
           "1" "049" eq_refl (or_introl (Nat.lt_succ_diag_r 2))).
Defined.

(** C5 as first stated fails: ".5" has exactly one '.', a one-digit
    fraction and no ',', yet [clean_price] returns null ([int("")] raises
    [ValueError], caught), not a value. *)
Lemma clean_price_dot_only_claim_fails :
  has_char "." (clean_text_of ".5") = true /\
  has_char "," (clean_text_of ".5") = false /\
  split_char "." (clean_text_of ".5") = [EmptyString; "5"] /\
  clean_price ".5" = None.
Proof. repeat split. Qed.

(** C6: the documented examples of [PriceParser.parse]. *)
Theorem clean_price_examples :
  opt_Qeq (clean_price "1.299,99") (Some 1299.99%Q) /\
  opt_Qeq (clean_price "1,299.99") (Some 1299.99%Q) /\
  opt_Qeq (clean_price "99,90") (Some 99.90%Q) /\
  opt_Qeq (clean_price "1.049") (Some 1049.00%Q) /\
  opt_Qeq (clean_price "488") (Some 488.00%Q) /\
  clean_price "" = None /\
  clean_price "abc" = None.
Proof. repeat split; vm_compute; reflexivity. Qed.

(** ** The [Product] model (validators.py 10-68) *)

(** Whitespace of Python's [str.strip()] and of [\s] on ASCII: \t \n \v
    \f \r, \x1c-\x1f and ' '.  Name cleaning ([py_strip], [collapse_ws])
    uses this ASCII set only; multi-byte whitespace such as U+00A0, which
    Python also strips and collapses, is kept as it is. *)
Definition is_py_space (c : ascii) : bool :=
  let n := char_code c in
  ((9 <=? n) && (n <=? 13))%nat || ((28 <=? n) && (n <=? 32))%nat.

Fixpoint lstrip (s : string) : string :=
  match s with
  | EmptyString => EmptyString
  | String d r => if is_py_space d then lstrip r else s
  end.

Fixpoint rev_str (s : string) (acc : string) : string :=
  match s with
  | EmptyString => acc
  | String d r => rev_str r (String d acc)
  end.

(** [s.strip()] *)
Definition py_strip (s : string) : string :=
  rev_str (lstrip (rev_str (lstrip s) EmptyString)) EmptyString.

(** [len(s)]: the number of code points of a UTF-8 string, i.e. of its
    bytes that are not continuation bytes (0x80-0xBF). *)
Fixpoint py_len (s : string) : nat :=
  match s with
  | EmptyString => 0
  | String d r =>
      if ((128 <=? char_code d) && (char_code d <=? 191))%nat
      then py_len r else S (py_len r)
  end.

(** [re.sub(r'\s+', ' ', s)]; [in_ws] records that the previous character
    was whitespace already replaced by the single ' '. *)
Fixpoint collapse_ws_aux (in_ws : bool) (s : string) : string :=
  match s with
  | EmptyString => EmptyString
  | String d r =>
      if is_py_space d then
        if in_ws then collapse_ws_aux true r else String " " (collapse_ws_aux true r)
      else String d (collapse_ws_aux false r)
  end.

Definition collapse_ws (s : string) : string := collapse_ws_aux false s.

Definition is_alnum (c : ascii) : bool :=
  let n := char_code c in
  is_digit c || ((65 <=? n) && (n <=? 90))%nat || ((97 <=? n) && (n <=? 122))%nat.

(** The allow-list [\w\sÀ-ÿ\-\(\)\[\]\/\+\.] of [validate_name].  On
    ASCII it is exact.  Every byte of a non-ASCII character is kept: this
    is right for letters and for the range À-ÿ, but Python removes the
    other non-word characters ('€', '°', '–', ...). *)
Definition name_allowed (c : ascii) : bool :=
  (128 <=? char_code c)%nat || is_alnum c || Ascii.eqb c "_" || is_py_space c
  || Ascii.eqb c "-" || Ascii.eqb c "(" || Ascii.eqb c ")" || Ascii.eqb c "["
  || Ascii.eqb c "]" || Ascii.eqb c "/" || Ascii.eqb c "+" || Ascii.eqb c ".".

(** [name: str = Field(..., min_length=3)] followed by the post-validator
    [validate_name]; [None] is a validation error. *)
Definition validate_name (v : string) : option string :=
  if (py_len v <? 3)%nat then None                      (* min_length=3 *)
  else if (String.length v =? 0)%nat || (py_len (py_strip v) <? 3)%nat
  then None                                              (* ValueError *)
  else
    let clean_name := collapse_ws (py_strip v) in
    Some (filter_str name_allowed clean_name).

Definition Qltb (a b : Q) : bool := negb (Qle_bool b a).

(** Python truthiness of an [Optional[float]]. *)
Definition truthy (v : option Q) : bool :=
  match v with
  | Some x => negb (Qeq_bool x 0)
  | None => false
  end.

(** [validate_price]: [Some v] is the validated value, [None] an error.
    Prices are exact numbers: a NaN float, for which both comparisons are
    false and which therefore validates in Python, is not modelled. *)
Definition validate_price (v : option Q) : option (option Q) :=
  match v with
  | None => Some None
  | Some x =>
      if Qltb x 1 then None
      else if Qltb 1000000 x then None
      else Some (Some x)
  end.

(** Python's [round(x, 2)]: to the nearest hundredth, ties to even. *)
Definition round_half_even (y : Q) : Z :=
  let f := Qfloor y in
  let r := y - inject_Z f in
  if Qltb r (1 # 2) then f
  else if Qltb (1 # 2) r then (f + 1)%Z
  else if Z.even f then f else (f + 1)%Z.

Definition py_round2 (x : Q) : Q := inject_Z (round_half_even (x * 100)) / 100.

(** [validate_discount]; [original] and [current] are
    [values.get('original_price')] and [values.get('price')]; the supplied
    value [v] is not read. *)
Definition validate_discount (v : Q) (original current : option Q) : Q :=
  match original, current with
  | Some o, Some c =>
      if truthy original && truthy current && Qltb c o
      then py_round2 (((o - c) / o) * 100)
      else 0
  | _, _ => 0
  end.

Definition BASE_URL : string := "https://www.mercadolivre.com.br".

(** [validate_url] *)
Definition validate_url (v : option string) : option string :=
  match v with
  | Some u =>
      if (String.length u =? 0)%nat then v
      else if String.prefix "http://" u || String.prefix "https://" u then v
      else Some (BASE_URL ++ u)
  | None => None
  end.

(** The fields of [Product] that the analysed code sets or validates
    ([seller], [rating], [reviews_count] keep their [None] defaults and
    [scraped_at] is a clock reading; they are left out). *)
Record Product := mkProduct {
  name : string;
  price : option Q;
  original_price : option Q;
  discount_percentage : Q;
  url : option string;
  image_url : option string;
  is_promotion : bool;
  free_shipping : bool;
  product_id : option string;
  category : option string;
  category_confidence : Q
}.

(** The construction [Product(...)] from keyword arguments: pydantic
    validates the fields in declaration
    order, each validator seeing in [values] the fields validated before
    it; any failure makes the whole construction raise [ValidationError]
    ([None]). *)
Definition product_new (data : Product) : option Product :=
  let name_r := validate_name (name data) in
  let price_r := validate_price (price data) in
  let original_r := validate_price (original_price data) in
  let get (r : option (option Q)) := match r with Some v => v | None => None end in
  let discount := validate_discount (discount_percentage data)
                    (get original_r) (get price_r) in
  let url_r := validate_url (url data) in
  match name_r, price_r, original_r with
  | Some n, Some p, Some o =>
      Some {| name := n; price := p; original_price := o;
              discount_percentage := discount; url := url_r;
              image_url := image_url data; is_promotion := is_promotion data;
              free_shipping := free_shipping data; product_id := product_id data;
              category := category data;
              category_confidence := category_confidence data |}
  | _, _, _ => None
  end.

(** A record with the given name, prices and supplied discount, the other
    fields at their defaults. *)
Definition product_args (n : string) (p o : option Q) (d : Q) : Product :=
  {| name := n; price := p; original_price := o; discount_percentage := d;
     url := None; image_url := None; is_promotion := false;
     free_shipping := false; product_id := None; category := None;
     category_confidence := 0 |}.

Example product_new_ex1 :
  option_map discount_percentage
    (product_new (product_args "Fritadeira Air Fryer" (Some 488) (Some 899) 99))
  = Some (4572 # 100).
Proof. vm_compute. reflexivity. Qed.

Lemma validate_price_some v w :
  validate_price v = Some w -> w = v /\ (forall x, v = Some x -> 1 <= x).
Proof.
  unfold validate_price, Qltb.
  destruct v as [x|]; intros H.
  - destruct (Qle_bool 1 x) eqn:E1; simpl in H; [|discriminate].
    destruct (Qle_bool x 1000000); simpl in H; [|discriminate].
    inversion H; subst. split; [reflexivity|].
    intros y Hy; inversion Hy; subst. apply Qle_bool_iff, E1.
  - inversion H; subst. split; [reflexivity | discriminate].
Qed.

Lemma truthy_ge1 x : 1 <= x -> truthy (Some x) = true.
Proof.
  intros H. unfold truthy.
  destruct (Qeq_bool x 0) eqn:E; [|reflexivity].
  apply Qeq_bool_iff in E. destruct x as [xn xd].
  unfold Qeq, Qle in *; simpl in *. lia.
Qed.

(** C1: on every successful construction, [discount_percentage] is
    [round(((original_price - price) / original_price) * 100, 2)] when both
    prices are present and [original_price > price], and 0 otherwise; the
    supplied [discount_percentage] of [data] plays no part. *)
Theorem product_discount_recomputed (data r : Product) :
  product_new data = Some r ->
  price r = price data /\ original_price r = original_price data /\
  discount_percentage r =
    match price data, original_price data with
    | Some c, Some o => if Qltb c o then py_round2 (((o - c) / o) * 100) else 0
    | _, _ => 0
    end.
Proof.
  unfold product_new.
  destruct (validate_name (name data)) as [n|]; [|discriminate].
  destruct (validate_price (price data)) as [p|] eqn:Ep; [|discriminate].
  destruct (validate_price (original_price data)) as [o|] eqn:Eo; [|discriminate].
  intros H; inversion H; subst; clear H; cbn.
  apply validate_price_some in Ep as [-> Hp].
  apply validate_price_some in Eo as [-> Ho].
  split; [reflexivity | split; [reflexivity |]].
  unfold validate_discount.
  destruct (price data) as [c|]; destruct (original_price data) as [x|]; try reflexivity.
  rewrite (truthy_ge1 x (Ho x eq_refl)), (truthy_ge1 c (Hp c eq_refl)).
  reflexivity.
Qed.

Lemma product_discount_recomputed_witness :
  exists r,
    product_new (product_args "Fritadeira Air Fryer" (Some 488) (Some 899) 99) = Some r /\
    discount_percentage r = py_round2 (((899 - 488) / 899) * 100).
Proof.
  destruct (product_new (product_args "Fritadeira Air Fryer" (Some 488) (Some 899) 99))
    as [r|] eqn:E.
  - exists r. split; [reflexivity|].
    exact (proj2 (proj2 (product_discount_recomputed _ r E))).
  - vm_compute in E. discriminate.
Defined.

(** C10 (code_bug): [validate_name] checks the length before cleaning, so
    a name made of characters outside the allow-list passes and is stored
    as the empty string, although the field is declared [min_length=3]. *)
Theorem validate_name_stores_short_name :
  option_map name (product_new (product_args "@@@@" None None 0)) = Some EmptyString.
Proof. vm_compute. reflexivity. Qed.

(** ** ProductClassifier (validators.py 226-483) *)

(** [ProductClassifier.CATEGORY_KEYWORDS] (validators.py 230-375), in
    dict order: category name, keyword list, weight. *)
Definition CATEGORY_KEYWORDS : list (string * (list string * Q)) := [
  ("Eletrônicos, Áudio e Vídeo",
    (["tv"; "televisão"; "televisor"; "smart tv"; "led"; "lcd"; "oled";
      "qled"; "eletrônico"; "eletronico"; "som"; "audio"; "áudio"; "fone";
      "headset"; "speaker"; "caixa de som"; "amplificador"; "receiver";
      "home theater"; "câmera"; "camera"; "fotografia"; "filmadora";
      "drone"; "gopro"; "soundbar"; "subwoofer"; "toca-discos"; "vinil";
      "cd player"; "microfone"; "mixer"; "estúdio"; "gravação"], 1));
  ("Celulares e Telefones",
    (["smartphone"; "celular"; "iphone"; "samsung galaxy"; "xiaomi";
      "motorola"; "lg"; "huawei"; "oneplus"; "pixel"; "telefone"; "mobile";
      "android"; "ios"; "capinha"; "película"; "carregador"; "cabo usb";
      "power bank"; "bateria"; "fone bluetooth"; "airpods"; "earbuds";
      "smartwatch"; "apple watch"; "celular desbloqueado"; "dual chip";
      "5g"; "4g"; "smartphone android"], 1));
  ("Informática",
    (["notebook"; "laptop"; "computador"; "pc"; "desktop"; "all in one";
      "processador"; "cpu"; "intel"; "amd"; "ryzen"; "core i3"; "core i5";
      "core i7"; "placa de vídeo"; "gpu"; "nvidia"; "radeon"; "geforce";
      "gtx"; "rtx"; "memória ram"; "ddr4"; "ddr5"; "ssd"; "hd";
      "disco rígido"; "storage"; "placa mãe"; "motherboard"; "fonte";
      "gabinete"; "cooler"; "monitor"; "teclado"; "mouse"; "mousepad";
      "webcam"; "microfone"; "impressora"; "scanner"; "roteador"; "modem";
      "wi-fi"; "cabo de rede"; "switch"; "pendrive"; "hd externo";
      "backup"; "software"; "windows"; "office"; "ultrabook"; "chromebook";
      "macbook"], 1));
  ("Casa, Móveis e Decoração",
    (["móvel"; "movel"; "sofá"; "sofa"; "poltrona"; "cadeira"; "mesa";
      "cama"; "guarda-roupa"; "armário"; "armario"; "estante"; "rack";
      "aparador"; "colchão"; "colchao"; "travesseiro"; "lençol"; "lencol";
      "edredom"; "cortina"; "persiana"; "tapete"; "carpete"; "luminária";
      "luminaria"; "abajur"; "lustre"; "pendente"; "espelho"; "quadro";
      "decoração"; "decoracao"; "vaso"; "planta"; "jardim"; "cozinha";
      "banheiro"; "quarto"; "sala"; "panela"; "frigideira"; "utensílio";
      "utensilio"; "talheres"; "pratos"; "xícara"; "xicara"; "copo";
      "garrafa"; "organizador"; "gaveta"; "criado-mudo"; "cômoda";
      "penteadeira"; "painel tv"], 1));
  ("Eletrodomésticos e Casa",
    (["ar condicionado"; "ventilador"; "aquecedor"; "micro-ondas";
      "microondas"; "geladeira"; "refrigerador"; "freezer"; "lava-louça";
      "lavadora"; "fogão"; "cooktop"; "forno elétrico"; "aspirador";
      "liquidificador"; "batedeira"; "processador"; "cafeteira";
      "sanduicheira"; "grill"; "ferro de passar"; "secadora"; "lava e seca"], 1));
  ("Roupas e Calçados",
    (["roupa"; "vestuário"; "vestuario"; "camiseta"; "camisa"; "blusa";
      "top"; "vestido"; "saia"; "short"; "bermuda"; "calça"; "calca";
      "jeans"; "legging"; "moletom"; "casaco"; "jaqueta"; "blazer";
      "colete"; "sapato"; "tênis"; "tenis"; "sandália"; "sandalia";
      "chinelo"; "bota"; "sapatênis"; "sapatenis"; "scarpin"; "salto";
      "rasteirinha"; "bolsa"; "mochila"; "carteira"; "necessaire"; "mala";
      "pochete"; "masculino"; "feminino"; "infantil"; "bebê"; "bebe";
      "polo"; "regata"; "cropped"; "midi"; "maxi"], 1));
  ("Esportes e Fitness",
    (["esporte"; "fitness"; "academia"; "ginástica"; "ginastica";
      "musculação"; "musculacao"; "futebol"; "bola"; "chuteira";
      "camisa de time"; "basquete"; "vôlei"; "volei"; "tênis esportivo";
      "corrida"; "maratona"; "caminhada"; "running"; "bicicleta"; "bike";
      "ciclismo"; "capacete"; "natação"; "natacao"; "piscina"; "halteres";
      "peso"; "anilha"; "barra"; "esteira"; "elíptico"; "eliptico"; "yoga";
      "pilates"; "colchonete"; "faixa elástica"; "suplemento"; "whey";
      "creatina"; "bcaa"; "surf"; "prancha"; "skate"; "patins"; "patinete";
      "crossfit"; "treino funcional"; "kettlebell"], 1));
  ("Livros, Revistas e Comics",
    (["livro"; "ebook"; "literatura"; "romance"; "ficção"; "ficcao";
      "biografia"; "autoajuda"; "auto-ajuda"; "negócios"; "negocios";
      "economia"; "política"; "politica"; "história"; "historia";
      "geografia"; "ciência"; "ciencia"; "matemática"; "matematica";
      "física"; "fisica"; "química"; "quimica"; "biologia"; "medicina";
      "psicologia"; "filosofia"; "sociologia"; "educação"; "educacao";
      "infantil"; "juvenil"; "didático"; "didatico"; "apostila"; "curso";
      "revista"; "gibi"; "mangá"; "manga"; "hq"; "quadrinhos"; "comic"], 1));
  ("Saúde e Beleza",
    (["maquiagem"; "cosméticos"; "cosmeticos"; "batom"; "base";
      "corretivo"; "rímel"; "rimel"; "sombra"; "blush"; "pó"; "po";
      "primer"; "gloss"; "perfume"; "colônia"; "colonia"; "desodorante";
      "antitranspirante"; "shampoo"; "condicionador"; "máscara capilar";
      "mascara capilar"; "creme"; "hidratante"; "protetor solar";
      "sabonete"; "esfoliante"; "sérum"; "serum"; "tônico"; "tonico";
      "demaquilante"; "água micelar"; "agua micelar"; "escova"; "pente";
      "secador"; "chapinha"; "babyliss"; "depilador"; "nail art";
      "esmalte"; "acetona"; "lixa"; "alicate"; "vitamina"; "suplemento";
      "medicamento"], 1));
  ("Games",
    (["video game"; "videogame"; "console"; "playstation"; "ps5"; "ps4";
      "ps3"; "xbox"; "nintendo"; "switch"; "controle"; "joystick";
      "gamepad"; "jogo"; "game"; "cd"; "dvd"; "blu-ray"; "digital";
      "steam"; "epic"; "pc gamer"; "gaming"; "headset gamer";
      "teclado gamer"; "mouse gamer"; "cadeira gamer"; "mesa gamer";
      "monitor gamer"; "placa de captura"; "streamer"; "twitch"; "youtube";
      "fps"; "rpg"; "mmorpg"; "battle royale"; "minecraft"; "fortnite";
      "gta"; "fifa"; "pes"; "call of duty"], 1));
  ("Carros, Motos e Outros",
    (["carro"; "automóvel"; "automovel"; "veículo"; "veiculo"; "auto";
      "motor"; "pneu"; "roda"; "aro"; "calota"; "freio"; "pastilha";
      "disco"; "amortecedor"; "óleo"; "oleo"; "filtro"; "bateria";
      "alternador"; "radiador"; "vela"; "correia"; "escapamento";
      "para-choque"; "para-brisa"; "farol"; "lanterna"; "retrovisor";
      "banco"; "volante"; "câmbio"; "cambio"; "embreagem";
      "som automotivo"; "alarme"; "trava"; "película"; "cera";
      "enceradeira"; "aspirador automotivo"; "suporte";
      "carregador veicular"; "gps"; "dvr"; "moto"; "motocicleta";
      "capacete moto"], 1));
  ("Relógios e Joias",
    (["relógio"; "relogio"; "smartwatch"; "apple watch"; "citizen";
      "casio"; "óculos"; "oculos"; "colar"; "pulseira"; "anel"; "brinco";
      "joia"; "jóia"; "ouro"; "prata"; "folheado"; "semi-joia"], 1))
].

(** [ProductClassifier.ML_CATEGORY_IDS] (validators.py 378-391). *)
Definition ML_CATEGORY_IDS : list (string * string) := [
  ("MLB1000", "Eletrônicos, Áudio e Vídeo");
  ("MLB1055", "Celulares e Telefones");
  ("MLB1648", "Informática");
  ("MLB1574", "Casa, Móveis e Decoração");
  ("MLB1556", "Eletrodomésticos e Casa");
  ("MLB1430", "Roupas e Calçados");
  ("MLB1276", "Esportes e Fitness");
  ("MLB3025", "Livros, Revistas e Comics");
  ("MLB263532", "Saúde e Beleza");
  ("MLB1144", "Games");
  ("MLB1743", "Carros, Motos e Outros");
  ("MLB1137", "Relógios e Joias")
].

(** [str.lower()] on UTF-8 text: ASCII capitals and the two-byte capitals
    À-Þ of the Latin-1 range (except ×) are mapped to their small forms;
    every other byte is kept.  This is Python's [str.lower()] on ASCII and
    Latin-1 text; capitals of other scripts (Ÿ, Greek, Cyrillic, ...),
    which Python also lowers, are not modelled. *)
Fixpoint py_lower (s : string) : string :=
  match s with
  | EmptyString => EmptyString
  | String a r =>
      let n := char_code a in
      if ((65 <=? n) && (n <=? 90))%nat then String (ascii_of_nat (n + 32)) (py_lower r)
      else if (n =? 195)%nat then
        match r with
        | String b r' =>
            let m := char_code b in
            if ((128 <=? m) && (m <=? 158) && negb (m =? 151))%nat
            then String a (String (ascii_of_nat (m + 32)) (py_lower r'))
            else String a (py_lower r)
        | EmptyString => String a EmptyString
        end
      else String a (py_lower r)
  end.

(** [needle in hay] for strings. *)
Fixpoint str_contains (needle hay : string) : bool :=
  String.prefix needle hay ||
  match hay with
  | EmptyString => false
  | String _ r => str_contains needle r
  end.

(** [dict.get] on an association list kept in dict order. *)
Fixpoint assoc_get {A : Type} (k : string) (l : list (string * A)) : option A :=
  match l with
  | [] => None
  | (k', v) :: rest => if String.eqb k k' then Some v else assoc_get k rest
  end.

(** Python truthiness of an [Optional[str]]. *)
Definition truthy_str (v : option string) : bool :=
  match v with
  | Some s => negb (String.length s =? 0)%nat
  | None => false
  end.

(** [re.search(r'/c/(MLB\d+)', url)]: the leftmost match, its group 1
    being "MLB" and the maximal run of digits after it. *)
Fixpoint digit_run (s : string) : string :=
  match s with
  | EmptyString => EmptyString
  | String d r => if is_digit d then String d (digit_run r) else EmptyString
  end.

Fixpoint search_category_id (s : string) : option string :=
  match s with
  | EmptyString => None
  | String _ r =>
      if String.prefix "/c/MLB" s then
        let ds := digit_run (String.substring 6 (String.length s - 6) s) in
        if (String.length ds =? 0)%nat then search_category_id r
        else Some ("MLB" ++ ds)
      else search_category_id r
  end.

(** [classify_by_url] *)
Definition classify_by_url (url : string) : option string * Q :=
  if (String.length url =? 0)%nat then (None, 0)
  else
    match search_category_id url with
    | Some category_id =>
        match assoc_get category_id ML_CATEGORY_IDS with
        | Some category =>
            if (String.length category =? 0)%nat then (None, 0)
            else (Some category, 1)
        | None => (None, 0)
        end
    | None => (None, 0)
    end.

(** Number of keywords of [kws] found in [text], and the accumulated score. *)
Fixpoint keyword_scan (kws : list string) (weight : Q) (text : string) : Q * nat :=
  match kws with
  | [] => (0, 0%nat)
  | kw :: rest =>
      let '(score, m) := keyword_scan rest weight text in
      if str_contains (py_lower kw) text then (weight + score, S m) else (score, m)
  end.

(** The [category_scores] dict: the categories with at least one match,
    in table order. *)
Fixpoint category_scores (tbl : list (string * (list string * Q))) (text : string)
  : list (string * (Q * nat)) :=
  match tbl with
  | [] => []
  | (category, (kws, weight)) :: rest =>
      let '(score, keyword_matches) := keyword_scan kws weight text in
      if (0 <? keyword_matches)%nat
      then (category, (score, keyword_matches)) :: category_scores rest text
      else category_scores rest text
  end.

(** Tuple comparison [(s1, m1) > (s2, m2)]. *)
Definition key_gt (a b : Q * nat) : bool :=
  Qltb (fst b) (fst a) || (Qeq_bool (fst a) (fst b) && (snd b <? snd a)%nat).

(** [max(items, key=...)]: the first item with a maximal key. *)
Fixpoint max_by_key (best : string * (Q * nat)) (l : list (string * (Q * nat)))
  : string * (Q * nat) :=
  match l with
  | [] => best
  | x :: rest => max_by_key (if key_gt (snd x) (snd best) then x else best) rest
  end.

(** [min(0.1 + (matches * 0.15), 0.95)] *)
Definition keyword_confidence (matches : nat) : Q :=
  let a := (1 # 10) + inject_Z (Z.of_nat matches) * (15 # 100) in
  if Qltb (95 # 100) a then 95 # 100 else a.

Definition classify_by_keywords_in (tbl : list (string * (list string * Q)))
    (product_name product_description : string) : option string * Q :=
  if (String.length product_name =? 0)%nat then (None, 0)
  else
    let text_to_analyze := py_lower (product_name ++ " " ++ product_description) in
    match category_scores tbl text_to_analyze with
    | [] => (None, 0)
    | first :: rest =>
        let '(category_name, (score, matches)) := max_by_key first rest in
        (Some category_name, keyword_confidence matches)
    end.

(** [classify_by_keywords] *)
Definition classify_by_keywords (product_name product_description : string)
  : option string * Q :=
  classify_by_keywords_in CATEGORY_KEYWORDS product_name product_description.

Definition option_eq_dec_str (a b : option string) : bool :=
  match a, b with
  | Some x, Some y => String.eqb x y
  | None, None => true
  | _, _ => false
  end.

(** [classify_product] *)
Definition classify_product (name url description : string) : option string * Q :=
  let '(category_url, confidence_url) := classify_by_url url in
  if truthy_str category_url && Qltb (8 # 10) confidence_url
  then (category_url, confidence_url)
  else
    let '(category_keywords, confidence_keywords) :=
      classify_by_keywords name description in
    if truthy_str category_url && truthy_str category_keywords then
      if option_eq_dec_str category_url category_keywords then
        (category_url,
         if Qltb confidence_url confidence_keywords then confidence_keywords
         else confidence_url)
      else if Qltb confidence_keywords confidence_url
      then (category_url, confidence_url)
      else (category_keywords, confidence_keywords)
    else if truthy_str category_url then (category_url, confidence_url)
    else if truthy_str category_keywords then (category_keywords, confidence_keywords)
    else (None, 0).

Example classify_by_keywords_ex1 :
  fst (classify_by_keywords "Smart TV LED 50 POLEGADAS" "")
  = Some "Eletrônicos, Áudio e Vídeo".
Proof. vm_compute. reflexivity. Qed.

(** ** Claims on the classifier *)

Lemma search_category_id_nonempty url cid :
  search_category_id url = Some cid -> (String.length url =? 0)%nat = false.
Proof. destruct url; [discriminate | reflexivity]. Qed.

Lemma assoc_get_forall {A : Type} (P : A -> Prop) k (l : list (string * A)) v :
  Forall (fun kv => P (snd kv)) l -> assoc_get k l = Some v -> P v.
Proof.
  induction l as [|[k' v'] rest IH]; simpl; [discriminate|].
  intros HF. inversion HF as [|? ? Hh Ht]; subst.
  destruct (String.eqb k k'); [intros H; inversion H; subst; exact Hh | exact (IH Ht)].
Qed.

Lemma ML_CATEGORY_IDS_nonempty :
  Forall (fun kv => (String.length (snd kv) =? 0)%nat = false) ML_CATEGORY_IDS.
Proof. repeat constructor. Qed.

(** The number of keywords of [category] (in the table [tbl]) that occur
    in [text]. *)
Definition category_keyword_matches (tbl : list (string * (list string * Q)))
    (category text : string) : nat :=
  match assoc_get category tbl with
  | Some (kws, _) => length (filter (fun kw => str_contains (py_lower kw) text) kws)
  | None => 0
  end.

Lemma keyword_scan_count kws w text :
  snd (keyword_scan kws w text) =
  length (filter (fun kw => str_contains (py_lower kw) text) kws).
Proof.
  induction kws as [|kw rest IH]; simpl; [reflexivity|].
  destruct (keyword_scan rest w text) as [sc m]; simpl in *.
  destruct (str_contains (py_lower kw) text); simpl; congruence.
Qed.

Lemma category_scores_key tbl text c x :
  In (c, x) (category_scores tbl text) -> In c (map fst tbl).
Proof.
  induction tbl as [|[c' [kws w]] rest IH]; simpl; [tauto|].
  destruct (keyword_scan kws w text) as [sc m].
  destruct (0 <? m)%nat; simpl; [intros [H|H]; [inversion H; left; reflexivity|] |];
    intros; right; auto.
Qed.

Lemma category_scores_matches tbl text c s m :
  NoDup (map fst tbl) ->
  In (c, (s, m)) (category_scores tbl text) ->
  m = category_keyword_matches tbl c text.
Proof.
  unfold category_keyword_matches.
  induction tbl as [|[c' [kws w]] rest IH]; simpl; [tauto|].
  intros Hnd. inversion Hnd as [|? ? Hnin Hnd']; subst.
  pose proof (keyword_scan_count kws w text) as Hk.
  destruct (keyword_scan kws w text) as [sc m'] eqn:Es; simpl in Hk.
  assert (Htail : In (c, (s, m)) (category_scores rest text) ->
                  m = match assoc_get c ((c', (kws, w)) :: rest) with
                      | Some (kws0, _) =>
                          length (filter (fun kw => str_contains (py_lower kw) text) kws0)
                      | None => 0%nat end).
  { intros Hin. simpl.
    destruct (String.eqb_spec c c') as [->|Hne].
    - exfalso. apply Hnin. exact (category_scores_key _ _ _ _ Hin).
    - exact (IH Hnd' Hin). }
  destruct (0 <? m')%nat; simpl.
  - intros [H|H]; [|exact (Htail H)].
    injection H as <- <- <-. simpl. rewrite String.eqb_refl. exact Hk.
  - exact Htail.
Qed.

Lemma max_by_key_in best l :
  max_by_key best l = best \/ In (max_by_key best l) l.
Proof.
  revert best; induction l as [|x rest IH]; intros best; simpl; [left; reflexivity|].
  destruct (key_gt (snd x) (snd best)).
  - destruct (IH x) as [H|H]; right; [left; symmetry; exact H | right; exact H].
  - destruct (IH best) as [H|H]; [left; exact H | right; right; exact H].
Qed.

Lemma classify_by_keywords_in_matches tbl name desc cat conf :
  NoDup (map fst tbl) ->
  classify_by_keywords_in tbl name desc = (Some cat, conf) ->
  conf = keyword_confidence
           (category_keyword_matches tbl cat (py_lower (name ++ " " ++ desc))).
Proof.
  intros Hnd. unfold classify_by_keywords_in.
  destruct (String.length name =? 0)%nat; [discriminate|].
  destruct (category_scores tbl (py_lower (name ++ " " ++ desc))) as [|first rest] eqn:Ec;
    [discriminate|].
  assert (Hin : In (max_by_key first rest) (first :: rest)).
  { destruct (max_by_key_in first rest) as [H|H]; [left; symmetry; exact H | right; exact H]. }
  destruct (max_by_key first rest) as [cn [sc m]].
  intros H; inversion H; subst.
  rewrite <- Ec in Hin. f_equal. exact (category_scores_matches _ _ _ _ _ Hnd Hin).
Qed.

Lemma keyword_confidence_le m : keyword_confidence m <= 95 # 100.
Proof.
  unfold keyword_confidence, Qltb.
  destruct (Qle_bool _ (95 # 100)) eqn:E; simpl.
  - apply Qle_bool_iff, E.
  - apply Qle_refl.
Qed.

Lemma keyword_confidence_mono m1 m2 :
  (m1 <= m2)%nat -> keyword_confidence m1 <= keyword_confidence m2.
Proof.
  intros Hm. unfold keyword_confidence, Qltb.
  set (a1 := (1 # 10) + inject_Z (Z.of_nat m1) * (15 # 100)).
  set (a2 := (1 # 10) + inject_Z (Z.of_nat m2) * (15 # 100)).
  assert (Ha : a1 <= a2).
  { unfold a1, a2. apply Qplus_le_compat; [apply Qle_refl |].
    apply Qmult_le_compat_r; [| discriminate].
    rewrite <- Zle_Qle. lia. }
  destruct (Qle_bool a1 (95 # 100)) eqn:E1; destruct (Qle_bool a2 (95 # 100)) eqn:E2;
    simpl.
  - exact Ha.
  - apply Qle_bool_iff, E1.
  - exfalso. apply Qle_bool_iff in E2.
    assert (a1 <= 95 # 100) by (eapply Qle_trans; eassumption). 
    apply Qle_bool_iff in H. congruence.
  - apply Qle_refl.
Qed.

Lemma CATEGORY_KEYWORDS_nodup : NoDup (map fst CATEGORY_KEYWORDS).
Proof.
  simpl.
  repeat match goal with
         | |- NoDup [] => apply NoDup_nil
         | |- NoDup (_ :: _) =>
             apply NoDup_cons;
               [simpl; intros H; repeat (destruct H as [H|H]; [discriminate H |]); exact H |]
         end.
Qed.

(** C7: whenever [classify_by_keywords] returns a category, its
    confidence is [min(0.1 + matches * 0.15, 0.95)] where [matches] counts
    the category's keywords found in the lower-cased "name description";
    that confidence never exceeds 0.95, and the formula is non-decreasing
    in [matches]. *)
Theorem classify_by_keywords_confidence (name description category : string) (conf : Q) :
  classify_by_keywords name description = (Some category, conf) ->
  conf = keyword_confidence
           (category_keyword_matches CATEGORY_KEYWORDS category
              (py_lower (name ++ " " ++ description))) /\
  conf <= 95 # 100 /\
  (forall m1 m2, (m1 <= m2)%nat -> keyword_confidence m1 <= keyword_confidence m2).
Proof.
  intros H.
  pose proof (classify_by_keywords_in_matches _ _ _ _ _ CATEGORY_KEYWORDS_nodup H) as Hc.
  split; [exact Hc | split; [rewrite Hc; apply keyword_confidence_le |]].
  exact keyword_confidence_mono.
Qed.

Lemma classify_by_keywords_confidence_witness :
  classify_by_keywords "Smart TV LED" "" = (Some "Eletrônicos, Áudio e Vídeo", keyword_confidence 3) /\
  keyword_confidence 3 = keyword_confidence
    (category_keyword_matches CATEGORY_KEYWORDS "Eletrônicos, Áudio e Vídeo"
       (py_lower ("Smart TV LED" ++ " " ++ ""))).
Proof.
  split; [vm_compute; reflexivity |].
  apply (proj1 (classify_by_keywords_confidence "Smart TV LED" "" _ _ eq_refl)).
Defined.

(** ** [DataProcessor.extract_product_id] (validators.py 137-156) *)

Definition drop_str (n : nat) (s : string) : string :=
  String.substring n (String.length s - n) s.

(** The four patterns of [extract_product_id], in order. *)
Inductive IdPattern := P_MLAB | P_P_MLAB | P_ITEM_ID | P_LONG_DIGITS.

Definition id_patterns : list IdPattern := [P_MLAB; P_P_MLAB; P_ITEM_ID; P_LONG_DIGITS].

Definition pattern_text (p : IdPattern) : string :=
  match p with
  | P_MLAB => "ML[AB]\d+"
  | P_P_MLAB => "/p/ML[AB]\d+"
  | P_ITEM_ID => "item[_-]?id[=:](\d+)"
  | P_LONG_DIGITS => "/(\d{10,})"
  end.

(** [ML[AB]\d+] at the start of [s]: the matched text. *)
Definition match_mlab (s : string) : option string :=
  if String.prefix "ML" s then
    match drop_str 2 s with
    | String x r =>
        if Ascii.eqb x "A" || Ascii.eqb x "B" then
          let ds := digit_run r in
          if (String.length ds =? 0)%nat then None else Some ("ML" ++ String x ds)
        else None
    | EmptyString => None
    end
  else None.

(** [item[_-]?id[=:](\d+)] at the start of [s]: the matched text and
    group 1.  The optional separator is tried first, then skipped. *)
Definition match_item_id_after (s : string) : option (string * string) :=
  if String.prefix "id" s then
    match drop_str 2 s with
    | String x r =>
        if Ascii.eqb x "=" || Ascii.eqb x ":" then
          let ds := digit_run r in
          if (String.length ds =? 0)%nat then None
          else Some ("id" ++ String x ds, ds)
        else None
    | EmptyString => None
    end
  else None.

Definition match_item_id (s : string) : option (string * string) :=
  if String.prefix "item" s then
    let r := drop_str 4 s in
    let with_sep :=
      match r with
      | String x r' =>
          if Ascii.eqb x "_" || Ascii.eqb x "-" then
            match match_item_id_after r' with
            | Some (m, g) => Some ("item" ++ String x m, g)
            | None => None
            end
          else None
      | EmptyString => None
      end in
    match with_sep with
    | Some res => Some res
    | None =>
        match match_item_id_after r with
        | Some (m, g) => Some ("item" ++ m, g)
        | None => None
        end
    end
  else None.

(** [/(\d{10,})] at the start of [s]: the matched text and group 1. *)
Definition match_long_digits (s : string) : option (string * string) :=
  match s with
  | String x r =>
      if Ascii.eqb x "/" then
        let ds := digit_run r in
        if (10 <=? String.length ds)%nat then Some (String x ds, ds) else None
      else None
  | EmptyString => None
  end.

(** A match at the start of [s]: group 0 and, when the pattern has one,
    group 1. *)
Definition pattern_match_at (p : IdPattern) (s : string) : option (string * option string) :=
  match p with
  | P_MLAB => option_map (fun m => (m, None)) (match_mlab s)
  | P_P_MLAB =>
      if String.prefix "/p/" s
      then option_map (fun m => ("/p/" ++ m, None)) (match_mlab (drop_str 3 s))
      else None
  | P_ITEM_ID => option_map (fun mg => (fst mg, Some (snd mg))) (match_item_id s)
  | P_LONG_DIGITS => option_map (fun mg => (fst mg, Some (snd mg))) (match_long_digits s)
  end.

(** [re.search(pattern, s)]: the leftmost match. *)
Fixpoint re_search (p : IdPattern) (s : string) : option (string * option string) :=
  match pattern_match_at p s with
  | Some m => Some m
  | None =>
      match s with
      | EmptyString => None
      | String _ r => re_search p r
      end
  end.

(** [extract_product_id]; the outer [None] is a raised [IndexError]
    ([match.group(1)] on a pattern without group 1). *)
Fixpoint extract_id_loop (patterns : list IdPattern) (url : string) : option (option string) :=
  match patterns with
  | [] => Some None
  | p :: rest =>
      match re_search p url with
      | Some (g0, g1) =>
          if String.prefix "/" (pattern_text p) then
            match g1 with Some g => Some (Some g) | None => None end
          else Some (Some g0)
      | None => extract_id_loop rest url
      end
  end.

Definition extract_product_id (url : string) : option (option string) :=
  if (String.length url =? 0)%nat then Some None
  else extract_id_loop id_patterns url.

Example extract_product_id_ex1 :
  extract_product_id "https://produto.mercadolivre.com.br/MLB-123/p/MLB1234567" =
  Some (Some "MLB1234567").
Proof. reflexivity. Qed.
Example extract_product_id_ex2 :
  extract_product_id "https://www.mercadolivre.com.br/x/12345678901" = Some (Some "12345678901").
Proof. reflexivity. Qed.

(** C9 (code_bug): for an [item_id=] URL, [extract_product_id] returns the
    whole match [item_id=123], not the captured digits: the choice between
    [group(1)] and [group(0)] tests whether the pattern text starts with
    '/', which this capturing pattern does not. *)
Theorem extract_product_id_item_id_whole_match :
  extract_id_loop [P_MLAB; P_P_MLAB] "https://www.mercadolivre.com.br/produto?item_id=123"
    = Some None /\
  re_search P_ITEM_ID "https://www.mercadolivre.com.br/produto?item_id=123"
    = Some ("item_id=123", Some "123") /\
  extract_product_id "https://www.mercadolivre.com.br/produto?item_id=123"
    = Some (Some "item_id=123").
Proof. repeat split. Qed.

(** ** Keyword flags (validators.py 197-224) *)

Definition any_keyword (kws : list string) (text : string) : bool :=
  existsb (fun kw => str_contains kw (py_lower text)) kws.

(** [is_promotion_indicator] *)
Definition is_promotion_indicator (text : string) : bool :=
  if (String.length text =? 0)%nat then false
  else any_keyword ["desconto"; "promoção"; "oferta"; "liquidação"; "sale"; "off";
                    "%"; "economize"; "imperdível"; "black friday"; "cyber monday";
                    "queima"] text.

(** [has_free_shipping] *)
Definition has_free_shipping (text : string) : bool :=
  if (String.length text =? 0)%nat then false
  else any_keyword ["frete grátis"; "frete gratuito"; "grátis"; "free shipping";
                    "sem custo de envio"] text.

(** ** [PlaywrightEngine._extract_single_product] (playwright_engine.py
    254-403) *)

(** What the page fetcher finds in one product fragment, one entry per
    selector of each fixed selector list (in the source's order), [None]
    where [element.select_one(selector)] finds nothing. *)
Record Element := mkElement {
  el_name_hits : list (option (string * string));  (* stripped text, 'title' attribute *)
  el_price_hits : list (option string);            (* stripped text *)
  el_original_hits : list (option string);         (* stripped text *)
  el_link_hits : list (option string);             (* 'href' attribute, "" if absent *)
  el_image : option string;                        (* 'src' or 'data-src' *)
  el_text : string;                                (* element.get_text() *)
  el_page_category : option string * Q
    (* extract_category_from_product_page(product_url); (None, 0.0) on error *)
}.

(** The name loop. *)
Fixpoint select_name (hits : list (option (string * string))) : option string :=
  match hits with
  | [] => None
  | None :: rest => select_name rest
  | Some (txt, title) :: rest =>
      let text := if (String.length txt =? 0)%nat then title else txt in
      if negb (String.length text =? 0)%nat && (10 <? py_len text)%nat
         && negb (any_keyword ["economiza"; "confira"; "ofertas"] text)
      then Some text
      else select_name rest
  end.

(** The current-price loop: [price] is overwritten by every candidate
    parsed and the loop stops at the first [price and price > 10]. *)
Fixpoint select_price (hits : list (option string)) (price : option Q) : option Q :=
  match hits with
  | [] => price
  | None :: rest => select_price rest price
  | Some price_text :: rest =>
      let price' := clean_price price_text in
      if truthy price' && (match price' with Some p => Qltb 10 p | None => false end)
      then price'
      else select_price rest price'
  end.

(** The original-price loop, given the current [price]. *)
Fixpoint select_original (price : option Q) (hits : list (option string)) : option Q :=
  match hits with
  | [] => None
  | None :: rest => select_original price rest
  | Some original_text :: rest =>
      match clean_price original_text with
      | Some po =>
          if truthy (Some po) && Qltb 10 po then
            if truthy price && (match price with Some p => Qltb p po | None => false end)
            then Some po
            else if negb (truthy price) then Some po
            else select_original price rest
          else select_original price rest
      | None => select_original price rest
      end
  end.

(** The link loop. *)
Fixpoint select_url (hits : list (option string)) : option string :=
  match hits with
  | [] => None
  | None :: rest => select_url rest
  | Some href :: rest =>
      if negb (String.length href =? 0)%nat
         && (str_contains "ML" href || str_contains "/p/" href)
      then Some (if String.prefix "http" href then href else BASE_URL ++ href)
      else select_url rest
  end.

(** The whole extraction; [None] is "no product" (an early [return None]
    or an exception caught by the [except Exception]). *)
Definition extract_single_product (element : Element) : option Product :=
  match select_name (el_name_hits element) with
  | None => None
  | Some name0 =>
      let price0 := select_price (el_price_hits element) None in
      let original_price0 := select_original price0 (el_original_hits element) in
      let product_url := select_url (el_link_hits element) in
      let element_text := el_text element in
      let is_promotion0 :=
        is_promotion_indicator element_text
        || match original_price0 with Some _ => true | None => false end
        || str_contains "off" (py_lower element_text) in
      let free_shipping0 := has_free_shipping element_text in
      if negb (truthy_str (Some name0) && truthy price0 && truthy_str product_url)
      then None
      else
        match product_url with
        | None => None
        | Some purl =>
            let '(real_category, real_confidence) :=
              if (py_len purl <? 200)%nat then el_page_category element
              else (None, 0) in
            let '(fallback_category, fallback_confidence) :=
              classify_product name0 purl "" in
            let '(category0, category_confidence0) :=
              if truthy_str real_category && Qltb (8 # 10) real_confidence
              then (real_category, real_confidence)
              else if truthy_str fallback_category
                      && Qltb real_confidence fallback_confidence
              then (fallback_category, fallback_confidence)
              else if truthy_str real_category then (real_category, real_confidence)
              else (fallback_category, fallback_confidence) in
            match extract_product_id purl with
            | None => None
            | Some pid =>
                product_new
                  {| name := name0; price := price0; original_price := original_price0;
                     discount_percentage := 0; url := Some purl;
                     image_url := el_image element; is_promotion := is_promotion0;
                     free_shipping := free_shipping0; product_id := pid;
                     category := category0; category_confidence := category_confidence0 |}
            end
        end
  end.

(** The end-to-end fragment of the specification's scenario. *)
Definition air_fryer_element : Element :=
  {| el_name_hits := [Some ("Fritadeira Air Fryer Mondial 4L", ""); None; None; None; None; None];
     el_price_hits := [Some "488"; None; None; None; None];
     el_original_hits := [Some "899"; None; None; None; None; None];
     el_link_hits := [Some "https://www.mercadolivre.com.br/fritadeira/p/MLB19604306"; None; None; None];
     el_image := None;
     el_text := "R$ 899 R$ 488 45% OFF Frete grátis";
     el_page_category := (None, 0) |}.

Example extract_single_product_ex1 :
  option_map (fun p => (price p, original_price p, discount_percentage p, is_promotion p,
                        free_shipping p, product_id p))
    (extract_single_product air_fryer_element)
  = Some (Some 488, Some 899, 4572 # 100, true, true, Some "MLB19604306").
Proof. vm_compute. reflexivity. Qed.

(** ** Claims on the extractor *)

Lemma product_new_prices data r :
  product_new data = Some r ->
  price r = price data /\ original_price r = original_price data.
Proof.
  unfold product_new.
  destruct (validate_name (name data)); [|discriminate].
  destruct (validate_price (price data)) as [p|] eqn:Ep; [|discriminate].
  destruct (validate_price (original_price data)) as [o|] eqn:Eo; [|discriminate].
  intros H; inversion H; subst; clear H; cbn.
  apply validate_price_some in Ep as [-> _].
  apply validate_price_some in Eo as [-> _].
  split; reflexivity.
Qed.

Lemma extract_single_product_inv e r :
  extract_single_product e = Some r ->
  exists data,
    product_new data = Some r /\
    price data = select_price (el_price_hits e) None /\
    original_price data =
      select_original (select_price (el_price_hits e) None) (el_original_hits e) /\
    truthy (price data) = true.
Proof.
  unfold extract_single_product.
  destruct (select_name (el_name_hits e)) as [n|]; [|discriminate].
  cbv zeta.
  destruct (truthy (select_price (el_price_hits e) None)) eqn:Et;
    [| rewrite andb_false_r; simpl; discriminate].
  destruct (select_url (el_link_hits e)) as [purl|];
    [| rewrite andb_false_r; simpl; discriminate].
  destruct (negb _); [discriminate|].
  destruct (if (py_len purl <? 200)%nat then el_page_category e else (None, 0))
    as [rc rconf].
  destruct (classify_product n purl "") as [fc fconf].
  match goal with |- context [let '(_, _) := ?x in _] => destruct x as [c cc] end.
  destruct (extract_product_id purl) as [pid|]; [|discriminate].
  intros H. eexists. split; [exact H |]. cbn.
  split; [reflexivity | split; [reflexivity | exact Et]].
Qed.

Lemma Qltb_lt a b : Qltb a b = true -> a < b.
Proof.
  unfold Qltb. intros H. apply negb_true_iff in H.
  apply Qnot_le_lt. intros Hle. apply Qle_bool_iff in Hle. congruence.
Qed.

Lemma select_original_spec price hits o :
  select_original price hits = Some o ->
  10 < o /\ (forall p, price = Some p -> truthy price = true -> p < o).
Proof.
  induction hits as [|[t|] rest IH]; cbn [select_original]; [discriminate | | exact IH].
  destruct (clean_price t) as [po|]; [|exact IH].
  destruct (truthy (Some po) && Qltb 10 po) eqn:E1; [|exact IH].
  apply andb_true_iff in E1 as [_ E1].
  destruct (truthy price && _) eqn:E2.
  - intros H; inversion H; subst. split; [apply Qltb_lt, E1|].
    intros p Hp _. subst. apply andb_true_iff in E2 as [_ E2]. apply Qltb_lt, E2.
  - destruct (negb (truthy price)) eqn:E3.
    + intros H; inversion H; subst. split; [apply Qltb_lt, E1|].
      intros p _ Ht. rewrite Ht in E3. discriminate.
    + exact IH.
Qed.

(** C3: in every record the extractor returns with both prices set, the
    original price is above the current price (and above the threshold
    10). *)
Theorem extract_original_above_price (e : Element) (r : Product) (p o : Q) :
  extract_single_product e = Some r ->
  price r = Some p -> original_price r = Some o ->
  p < o /\ 10 < o.
Proof.
  intros H Hp Ho.
  destruct (extract_single_product_inv e r H) as (data & Hn & Hpd & Hod & Ht).
  destruct (product_new_prices data r Hn) as [Hpr Hor].
  rewrite Hpr in Hp. rewrite Hor, Hod in Ho. rewrite Hp in Hpd.
  destruct (select_original_spec _ _ _ Ho) as [H10 Hgt].
  split; [| exact H10].
  apply (Hgt p (eq_sym Hpd)). rewrite <- Hpd. rewrite <- Hp. exact Ht.
Qed.

Lemma extract_original_above_price_witness :
  exists r, extract_single_product air_fryer_element = Some r /\
            price r = Some 488 /\ original_price r = Some 899 /\ 488 < 899 /\ 10 < 899.
Proof.
  destruct (extract_single_product air_fryer_element) as [r|] eqn:E;
    [| vm_compute in E; discriminate].
  assert (Hp : price r = Some 488) by (vm_compute in E; inversion E; reflexivity).
  assert (Ho : original_price r = Some 899) by (vm_compute in E; inversion E; reflexivity).
  exists r. split; [reflexivity|]. split; [exact Hp|]. split; [exact Ho|].
  exact (extract_original_above_price air_fryer_element r 488 899 E Hp Ho).
Defined.

(** A fragment whose only current-price candidate parses to 5, below the
    threshold 10. *)
Definition low_price_element : Element :=
  {| el_name_hits := [Some ("Fritadeira Air Fryer Mondial 4L", ""); None; None; None; None; None];
     el_price_hits := [Some "5"; None; None; None; None];
     el_original_hits := [None; None; None; None; None; None];
     el_link_hits := [Some "https://www.mercadolivre.com.br/fritadeira/p/MLB19604306"; None; None; None];
     el_image := None;
     el_text := "R$ 5";
     el_page_category := (None, 0) |}.

(** C4 (code_bug): no current-price candidate passes [price > 10], yet the
    extractor returns a record whose price is 5: the loop keeps the last
    parsed candidate in [price] instead of a separate variable. *)
Theorem extract_keeps_price_below_threshold :
  option_map price (extract_single_product low_price_element) = Some (Some 5).
Proof. vm_compute. reflexivity. Qed.

(** ** [ScraperCache._generate_cache_key] (cache.py 74-77) *)

(** JSON-serialisable parameter values. *)
#[warnings="-register-all"]
Inductive JValue :=
| JNull
| JBool (b : bool)
| JInt (z : Z)
| JFloat (repr : string)       (* a float, by its [repr] *)
| JStr (s : string)
| JList (items : list JValue)
| JObj (fields : list (string * JValue)).

(** The insertion step of the sort of [sorted(dct.items())]; keys are
    unique, so only keys are compared. *)
Fixpoint insert_item {A : Type} (x : string * A) (l : list (string * A)) : list (string * A) :=
  match l with
  | [] => [x]
  | y :: rest => if String.leb (fst x) (fst y) then x :: y :: rest else y :: insert_item x rest
  end.

Definition sort_items {A : Type} (l : list (string * A)) : list (string * A) :=
  fold_right insert_item [] l.

Section CacheKey.

(** The string encoder of [json] ([encode_basestring_ascii]: quotes and
    escapes) and [hashlib.md5(data.encode()).hexdigest()]. *)
Variable encode_str : string -> string.
Variable md5_hexdigest : string -> string.

(** [json.dumps(v, sort_keys=True)] with the default separators. *)
Fixpoint json_dumps (v : JValue) : string :=
  match v with
  | JNull => "null"
  | JBool true => "true"
  | JBool false => "false"
  | JInt z => DecimalString.NilZero.string_of_int (Z.to_int z)
  | JFloat r => r
  | JStr s => encode_str s
  | JList items =>
      "[" ++ String.concat ", "
               ((fix go (l : list JValue) : list string :=
                   match l with [] => [] | x :: rest => json_dumps x :: go rest end) items)
      ++ "]"
  | JObj fields =>
      "{" ++ String.concat ", "
               (map (fun kv => encode_str (fst kv) ++ ": " ++ snd kv)
                  (sort_items
                     ((fix go (l : list (string * JValue)) : list (string * string) :=
                         match l with
                         | [] => []
                         | (k, x) :: rest => (k, json_dumps x) :: go rest
                         end) fields)))
      ++ "}"
  end.

Definition generate_cache_key (query_type : string) (params : list (string * JValue)) : string :=
  md5_hexdigest (query_type ++ ":" ++ json_dumps (JObj params)).

Lemma json_dumps_obj fields :
  json_dumps (JObj fields) =
  "{" ++ String.concat ", "
           (map (fun kv => encode_str (fst kv) ++ ": " ++ snd kv)
              (sort_items (map (fun kv => (fst kv, json_dumps (snd kv))) fields)))
  ++ "}".
Proof.
  assert (G : forall l,
    (fix go (l : list (string * JValue)) : list (string * string) :=
       match l with
       | [] => []
       | (k, x) :: rest => (k, json_dumps x) :: go rest
       end) l = map (fun kv => (fst kv, json_dumps (snd kv))) l).
  { induction l as [|[k x] rest IH]; simpl; [reflexivity | rewrite IH; reflexivity]. }
  cbn [json_dumps]. rewrite G. reflexivity.
Qed.

End CacheKey.

Lemma string_leb_trans a b c :
  String.leb a b = true -> String.leb b c = true -> String.leb a c = true.
Proof.
  unfold String.leb. revert b c.
  induction a as [|x a IH]; intros [|y b] [|z c]; cbn [String.compare]; try easy.
  unfold Ascii.compare.
  destruct (N.compare_spec (N_of_ascii x) (N_of_ascii y)) as [Hxy|Hxy|Hxy];
  destruct (N.compare_spec (N_of_ascii y) (N_of_ascii z)) as [Hyz|Hyz|Hyz];
  destruct (N.compare_spec (N_of_ascii x) (N_of_ascii z)) as [Hxz|Hxz|Hxz];
  try lia; try easy.
  apply IH.
Qed.

Lemma string_leb_neq a b :
  a <> b -> String.leb a b = true -> String.leb b a = false.
Proof.
  intros Hne Hab. destruct (String.leb b a) eqn:E; [|reflexivity].
  exfalso. apply Hne. apply String.leb_antisym; assumption.
Qed.

Lemma insert_item_comm {A : Type} (x y : string * A) l :
  fst x <> fst y ->
  insert_item x (insert_item y l) = insert_item y (insert_item x l).
Proof.
  intros Hne.
  assert (Hne' : fst y <> fst x) by congruence.
  induction l as [|e rest IH]; cbn [insert_item].
  - destruct (String.leb (fst x) (fst y)) eqn:Exy.
    + rewrite (string_leb_neq _ _ Hne Exy). reflexivity.
    + destruct (String.leb_total (fst x) (fst y)) as [H|H]; [congruence|].
      rewrite H. reflexivity.
  - destruct (String.leb (fst y) (fst e)) eqn:Eye;
    destruct (String.leb (fst x) (fst e)) eqn:Exe; cbn [insert_item].
    + rewrite Eye, Exe.
      destruct (String.leb (fst x) (fst y)) eqn:Exy.
      * rewrite (string_leb_neq _ _ Hne Exy). reflexivity.
      * destruct (String.leb_total (fst x) (fst y)) as [H|H]; [congruence|].
        rewrite H. reflexivity.
    + rewrite Exe.
      destruct (String.leb (fst x) (fst y)) eqn:Exy.
      * rewrite (string_leb_trans _ _ _ Exy Eye) in Exe. discriminate.
      * cbn [insert_item]. rewrite ?Exe, ?Eye. reflexivity.
    + rewrite Eye.
      destruct (String.leb (fst y) (fst x)) eqn:Eyx.
      * rewrite (string_leb_trans _ _ _ Eyx Exe) in Eye. discriminate.
      * cbn [insert_item]. rewrite ?Eye, ?Exe. reflexivity.
    + rewrite ?Eye, ?Exe, IH. reflexivity.
Qed.

Lemma sort_items_perm {A : Type} (l1 l2 : list (string * A)) :
  NoDup (map fst l1) -> Permutation l1 l2 -> sort_items l1 = sort_items l2.
Proof.
  intros Hnd Hp. revert Hnd.
  induction Hp as [| x l l' Hp IH | x y l | l l' l'' Hp1 IH1 Hp2 IH2]; intros Hnd.
  - reflexivity.
  - simpl in Hnd. inversion Hnd; subst.
    unfold sort_items; simpl. fold (sort_items l) (sort_items l'). rewrite IH; auto.
  - simpl in Hnd. inversion Hnd as [|? ? Hnin Hnd']; subst.
    unfold sort_items; simpl.
    apply insert_item_comm. intros Heq. apply Hnin. rewrite Heq. left. reflexivity.
  - rewrite (IH1 Hnd). apply IH2.
    apply (Permutation_NoDup (Permutation_map fst Hp1) Hnd).
Qed.

(** C8: the cache key depends only on the query type and on the
    parameters' key/value pairs, not on their insertion order, whatever
    the JSON string encoder and the digest are. *)
Theorem generate_cache_key_order_independent
    (encode_str md5_hexdigest : string -> string) (query_type : string)
    (params1 params2 : list (string * JValue)) :
  NoDup (map fst params1) -> Permutation params1 params2 ->
  generate_cache_key encode_str md5_hexdigest query_type params1 =
  generate_cache_key encode_str md5_hexdigest query_type params2.
Proof.
  intros Hnd Hp. unfold generate_cache_key.
  rewrite !json_dumps_obj.
  rewrite (sort_items_perm (map (fun kv => (fst kv, json_dumps encode_str (snd kv))) params1)
                           (map (fun kv => (fst kv, json_dumps encode_str (snd kv))) params2)).
  - reflexivity.
  - rewrite map_map. exact Hnd.
  - apply Permutation_map, Hp.
Qed.

Lemma generate_cache_key_order_independent_witness :
  NoDup (map fst [("term", JStr "tv"); ("max", JInt 10)]) /\
  Permutation [("term", JStr "tv"); ("max", JInt 10)] [("max", JInt 10); ("term", JStr "tv")] /\
  generate_cache_key (fun s => s) (fun s => s) "search_term"
    [("term", JStr "tv"); ("max", JInt 10)] =
  generate_cache_key (fun s => s) (fun s => s) "search_term"
    [("max", JInt 10); ("term", JStr "tv")].
Proof.
  assert (Hnd : NoDup (map fst [("term", JStr "tv"); ("max", JInt 10)])).
  { simpl. constructor; [simpl; intros [H|H]; [discriminate H | exact H] |].
    constructor; [simpl; intros H; exact H | constructor]. }
  assert (Hp : Permutation [("term", JStr "tv"); ("max", JInt 10)]
                           [("max", JInt 10); ("term", JStr "tv")]) by apply perm_swap.
  split; [exact Hnd | split; [exact Hp |]].
  apply generate_cache_key_order_independent; assumption.
Defined.

(** * Further properties of the embedded code *)

(** ** The price parser *)

Lemma filter_str_idem keep s : filter_str keep (filter_str keep s) = filter_str keep s.
Proof.
  induction s as [|d r IH]; cbn [filter_str]; [reflexivity|].
  destruct (keep d) eqn:E; cbn [filter_str]; [rewrite E, IH|]; auto.
Qed.

(** X1: [clean_price] only reads the digits, commas and dots of its
    input: parsing the cleaned text gives the same result. *)
Theorem clean_price_cleaned (s : string) :
  clean_price (clean_text_of s) = clean_price s.
Proof.
  unfold clean_price. cbv zeta.
  assert (Hi : clean_text_of (clean_text_of s) = clean_text_of s) by apply filter_str_idem.
  rewrite Hi.
  destruct s as [|a r]; [reflexivity|].
  cbn [String.length Nat.eqb].
  destruct (String.length (clean_text_of (String a r)) =? 0)%nat eqn:E; reflexivity.
Qed.

Lemma digits_value_acc_nonneg t a : (0 <= a)%Z -> (0 <= digits_value_acc t a)%Z.
Proof.
  revert a; induction t as [|d r IH]; intros a Ha; cbn [digits_value_acc]; [exact Ha|].
  apply IH. lia.
Qed.

Lemma py_float_nonneg t q : py_float t = Some q -> 0 <= q.
Proof.
  unfold py_float.
  destruct (split_char "." t) as [|ip [|fp [|? ?]]]; try discriminate.
  - destruct (_ && _); [|discriminate]. intros H; inversion H; subst.
    pose proof (digits_value_acc_nonneg ip 0 (Z.le_refl 0)).
    unfold digits_value, Qle; simpl. lia.
  - destruct (_ && _ && _); [|discriminate]. intros H; inversion H; subst.
    pose proof (digits_value_acc_nonneg (ip ++ fp) 0 (Z.le_refl 0)).
    unfold digits_value, Qle; simpl. lia.
Qed.

(** X2: a price parsed by [clean_price] is never negative (the parser
    drops any minus sign with the other non-price characters). *)
Theorem clean_price_nonneg (s : string) (q : Q) :
  clean_price s = Some q -> 0 <= q.
Proof.
  intros H. unfold clean_price in H. cbv zeta in H.
  repeat (match type of H with
          | (if ?b then _ else _) = _ => destruct b
          | (match ?x with _ => _ end) = _ => destruct x
          end; try discriminate H; try exact (py_float_nonneg _ _ H)).
Qed.

Lemma clean_price_nonneg_witness :
  clean_price "R$ -1.299,99" = Some (129999 # 100) /\ 0 <= 129999 # 100.
Proof.
  split; [reflexivity|]. exact (clean_price_nonneg "R$ -1.299,99" _ eq_refl).
Defined.

(** ** The [Product] model *)

Lemma validate_price_range v x :
  validate_price v = Some (Some x) -> 1 <= x <= 1000000.
Proof.
  unfold validate_price, Qltb. destruct v as [y|]; [|discriminate].
  destruct (Qle_bool 1 y) eqn:E1; simpl; [|discriminate].
  destruct (Qle_bool y 1000000) eqn:E2; simpl; [|discriminate].
  intros H; inversion H; subst.
  split; apply Qle_bool_iff; assumption.
Qed.

Lemma validate_price_out v x :
  v = Some x -> x < 1 \/ 1000000 < x -> validate_price v = None.
Proof.
  intros -> Hx. unfold validate_price, Qltb.
  destruct (Qle_bool 1 x) eqn:E1; simpl; [|reflexivity].
  destruct (Qle_bool x 1000000) eqn:E2; simpl; [|reflexivity].
  apply Qle_bool_iff in E1, E2.
  destruct Hx as [Hx|Hx]; exfalso; apply (Qlt_not_le _ _ Hx); assumption.
Qed.

Lemma product_new_fields data r :
  product_new data = Some r ->
  validate_name (name data) = Some (name r) /\
  validate_price (price data) = Some (price r) /\
  validate_price (original_price data) = Some (original_price r) /\
  discount_percentage r =
    validate_discount (discount_percentage data) (original_price r) (price r) /\
  url r = validate_url (url data) /\
  is_promotion r = is_promotion data /\ product_id r = product_id data.
Proof.
  unfold product_new.
  destruct (validate_name (name data)) as [n|]; [|discriminate].
  destruct (validate_price (price data)) as [p|] eqn:Ep; [|discriminate].
  destruct (validate_price (original_price data)) as [o|] eqn:Eo; [|discriminate].
  intros H; inversion H; subst; clear H; cbn.
  repeat split; reflexivity.
Qed.

(** X3: every price stored in a [Product] (current or original) that is a
    number (not a NaN float, see [validate_price]) lies in [1, 1000000]. *)
Theorem product_new_price_range (data r : Product) (x : Q) :
  product_new data = Some r ->
  price r = Some x \/ original_price r = Some x -> 1 <= x <= 1000000.
Proof.
  intros H Hx. destruct (product_new_fields _ _ H) as (_ & Hp & Ho & _).
  destruct Hx as [Hx|Hx]; rewrite Hx in *; eapply validate_price_range; eassumption.
Qed.

Lemma product_new_price_range_witness :
  exists r, product_new (product_args "Fritadeira Air Fryer" (Some 488) (Some 899) 0) = Some r /\
            price r = Some 488 /\ 1 <= 488 <= 1000000.
Proof.
  destruct (product_new (product_args "Fritadeira Air Fryer" (Some 488) (Some 899) 0))
    as [r|] eqn:E; [| vm_compute in E; discriminate].
  assert (Hp : price r = Some 488) by (vm_compute in E; inversion E; reflexivity).
  exists r. split; [reflexivity | split; [exact Hp|]].
  exact (product_new_price_range _ r 488 E (or_introl Hp)).
Defined.

(** X4: a current or original price below 1 or above 1000000 makes the
    construction of a [Product] fail. *)
Theorem product_new_rejects_price (data : Product) (x : Q) :
  price data = Some x \/ original_price data = Some x ->
  x < 1 \/ 1000000 < x -> product_new data = None.
Proof.
  intros Hx Hout. unfold product_new.
  destruct Hx as [Hx|Hx].
  - rewrite (validate_price_out _ _ Hx Hout).
    destruct (validate_name (name data)); reflexivity.
  - rewrite (validate_price_out _ _ Hx Hout).
    destruct (validate_name (name data)), (validate_price (price data)); reflexivity.
Qed.

Lemma product_new_rejects_price_witness :
  (price (product_args "Fritadeira Air Fryer" (Some 488) (Some 2000000) 0) = Some 2000000 \/
   original_price (product_args "Fritadeira Air Fryer" (Some 488) (Some 2000000) 0)
     = Some 2000000) /\
  (2000000 < 1 \/ 1000000 < 2000000) /\
  product_new (product_args "Fritadeira Air Fryer" (Some 488) (Some 2000000) 0) = None.
Proof.
  assert (H1 : price (product_args "Fritadeira Air Fryer" (Some 488) (Some 2000000) 0)
                 = Some 2000000 \/
               original_price (product_args "Fritadeira Air Fryer" (Some 488) (Some 2000000) 0)
                 = Some 2000000) by (right; reflexivity).
  assert (H2 : 2000000 < 1 \/ 1000000 < 2000000) by (right; reflexivity).
  split; [exact H1 | split; [exact H2 |]].
  exact (product_new_rejects_price _ 2000000 H1 H2).
Defined.

Lemma round_half_even_bounds (y : Q) (N : Z) :
  0 <= y -> y <= inject_Z N -> (0 <= round_half_even y <= N)%Z.
Proof.
  intros H0 HN. unfold round_half_even.
  pose proof (Qfloor_le y) as Hf1. pose proof (Qlt_floor y) as Hf2.
  set (f := Qfloor y) in *.
  assert (Hf0 : (0 <= f)%Z).
  { assert (H : inject_Z 0 < inject_Z (f + 1)) by (apply Qle_lt_trans with y; [exact H0 | exact Hf2]).
    rewrite <- Zlt_Qlt in H. lia. }
  assert (HfN : (f <= N)%Z) by (rewrite Zle_Qle; lra).
  assert (Hup : 1 # 2 <= y - inject_Z f -> (f + 1 <= N)%Z).
  { intros Hr. assert (H : inject_Z f < inject_Z N) by lra.
    rewrite <- Zlt_Qlt in H. lia. }
  unfold Qltb.
  destruct (Qle_bool (1 # 2) (y - inject_Z f)) eqn:E1; simpl; [|lia].
  apply Qle_bool_iff in E1. specialize (Hup E1).
  destruct (Qle_bool (y - inject_Z f) (1 # 2)); simpl; [|lia].
  destruct (Z.even f); lia.
Qed.

Lemma validate_discount_range v original current :
  (forall c, current = Some c -> 1 <= c) ->
  0 <= validate_discount v original current <= 100.
Proof.
  intros Hc. unfold validate_discount.
  destruct original as [o|]; destruct current as [c|]; try (split; discriminate).
  specialize (Hc c eq_refl).
  destruct (truthy (Some o) && truthy (Some c) && Qltb c o) eqn:E;
    [| split; discriminate].
  apply andb_true_iff in E as [_ E]. apply Qltb_lt in E.
  assert (Ho : 0 < o) by lra.
  set (t := / o).
  assert (Ht : 0 < t) by (apply Qinv_lt_0_compat, Ho).
  assert (Hot : o * t == 1) by (apply Qmult_inv_r; intros Hz; rewrite Hz in Ho; discriminate).
  assert (Hct0 : 0 < c * t) by (apply Qmult_lt_0_compat; lra).
  assert (Hct1 : c * t < o * t) by (apply Qmult_lt_compat_r; assumption).
  assert (Hx : (o - c) / o * 100 * 100 == (o * t - c * t) * 10000)
    by (unfold Qdiv; fold t; ring).
  pose proof (round_half_even_bounds ((o - c) / o * 100 * 100) 10000) as Hb.
  assert (Hb' : (0 <= round_half_even ((o - c) / o * 100 * 100) <= 10000)%Z).
  { set (a := o * t) in *. set (b := c * t) in *.
    apply Hb; rewrite Hx; [lra |]. change (inject_Z 10000) with (10000 # 1). lra. }
  unfold py_round2.
  set (z := round_half_even ((o - c) / o * 100 * 100)) in *.
  assert (Hz0 : inject_Z 0 <= inject_Z z) by (rewrite <- Zle_Qle; lia).
  assert (Hz1 : inject_Z z <= inject_Z 10000) by (rewrite <- Zle_Qle; lia).
  change (inject_Z 0) with 0 in Hz0. change (inject_Z 10000) with (10000 # 1) in Hz1.
  unfold Qdiv. change (/ 100) with (1 # 100). split; lra.
Qed.

(** X5: the discount stored in a [Product] always lies in [0, 100]. *)
Theorem product_new_discount_range (data r : Product) :
  product_new data = Some r -> 0 <= discount_percentage r <= 100.
Proof.
  intros H. destruct (product_new_fields _ _ H) as (_ & Hp & _ & Hd & _).
  rewrite Hd. apply validate_discount_range.
  intros c Hc. rewrite Hc in Hp. exact (proj1 (validate_price_range _ _ Hp)).
Qed.

Lemma product_new_discount_range_witness :
  exists r, product_new (product_args "Fritadeira Air Fryer" (Some 1) (Some 1000000) 0) = Some r /\
            discount_percentage r = 10000 # 100 /\ 0 <= 10000 # 100 <= 100.
Proof.
  destruct (product_new (product_args "Fritadeira Air Fryer" (Some 1) (Some 1000000) 0))
    as [r|] eqn:E; [| vm_compute in E; discriminate].
  assert (Hd : discount_percentage r = 10000 # 100) by (vm_compute in E; inversion E; reflexivity).
  exists r. split; [reflexivity | split; [exact Hd|]].
  rewrite <- Hd. exact (product_new_discount_range _ r E).
Defined.

(** X6: [validate_url] is idempotent: a URL it has completed is kept as it
    is. *)
Theorem validate_url_idempotent (v : option string) :
  validate_url (validate_url v) = validate_url v.
Proof.
  destruct v as [u|]; [|reflexivity]. unfold validate_url.
  destruct (String.length u =? 0)%nat eqn:E0; [rewrite E0; reflexivity|].
  destruct (String.prefix "http://" u || String.prefix "https://" u) eqn:Ep.
  - rewrite E0, Ep. reflexivity.
  - cbn [String.length BASE_URL String.append Nat.eqb String.prefix].
    reflexivity.
Qed.

(** X7: a non-empty URL stored in a [Product] starts with [http://] or
    [https://]. *)
Theorem product_new_url_scheme (data r : Product) (u : string) :
  product_new data = Some r -> url r = Some u -> u <> EmptyString ->
  String.prefix "http://" u || String.prefix "https://" u = true.
Proof.
  intros H Hu Hne. destruct (product_new_fields _ _ H) as (_ & _ & _ & _ & Hurl & _).
  rewrite Hurl in Hu. unfold validate_url in Hu.
  destruct (url data) as [u0|]; [|discriminate].
  destruct (String.length u0 =? 0)%nat eqn:E0.
  - inversion Hu; subst. destruct u; [congruence | discriminate].
  - destruct (String.prefix "http://" u0 || String.prefix "https://" u0) eqn:Ep;
      inversion Hu; subst; [exact Ep | reflexivity].
Qed.

Lemma product_new_url_scheme_witness :
  exists r,
    product_new {| name := "Fritadeira Air Fryer"; price := Some 488; original_price := None;
                   discount_percentage := 0; url := Some "/fritadeira/p/MLB19604306";
                   image_url := None; is_promotion := false; free_shipping := false;
                   product_id := None; category := None; category_confidence := 0 |}
      = Some r /\
    url r = Some (BASE_URL ++ "/fritadeira/p/MLB19604306") /\
    BASE_URL ++ "/fritadeira/p/MLB19604306" <> EmptyString /\
    String.prefix "http://" (BASE_URL ++ "/fritadeira/p/MLB19604306")
    || String.prefix "https://" (BASE_URL ++ "/fritadeira/p/MLB19604306") = true.
Proof.
  match goal with |- exists r, product_new ?d = Some r /\ _ =>
    destruct (product_new d) as [r|] eqn:E; [| vm_compute in E; discriminate] end.
  assert (Hu : url r = Some (BASE_URL ++ "/fritadeira/p/MLB19604306"))
    by (vm_compute in E; inversion E; reflexivity).
  assert (Hne : BASE_URL ++ "/fritadeira/p/MLB19604306" <> EmptyString) by discriminate.
  exists r. split; [reflexivity | split; [exact Hu | split; [exact Hne |]]].
  exact (product_new_url_scheme _ r _ E Hu Hne).
Defined.

Lemma filter_str_forall (keep : ascii -> bool) (P : ascii -> Prop) s :
  Forall P (list_ascii_of_string s) ->
  Forall (fun c => keep c = true /\ P c) (list_ascii_of_string (filter_str keep s)).
Proof.
  induction s as [|d r IH]; cbn [filter_str list_ascii_of_string]; intros H; [constructor|].
  inversion H; subst.
  destruct (keep d) eqn:E; cbn [list_ascii_of_string]; auto.
Qed.

Lemma collapse_ws_aux_spaces b s :
  Forall (fun c => is_py_space c = true -> c = " "%char)
         (list_ascii_of_string (collapse_ws_aux b s)).
Proof.
  revert b; induction s as [|d r IH]; intros b; cbn [collapse_ws_aux]; [constructor|].
  destruct (is_py_space d) eqn:E.
  - destruct b; [apply IH | constructor; [reflexivity | apply IH]].
  - constructor; [congruence | apply IH].
Qed.

(** The ASCII characters the name cleaning can leave: those of
    [\w\sÀ-ÿ\-\(\)\[\]\/\+\.] below 0x80, with the plain space as the only
    whitespace (every run of [\s] has become ' '). *)
Definition ascii_name_char (c : ascii) : bool :=
  is_alnum c || Ascii.eqb c "_" || Ascii.eqb c " "
  || Ascii.eqb c "-" || Ascii.eqb c "(" || Ascii.eqb c ")" || Ascii.eqb c "["
  || Ascii.eqb c "]" || Ascii.eqb c "/" || Ascii.eqb c "+" || Ascii.eqb c ".".

Lemma name_allowed_ascii c :
  name_allowed c = true /\ (is_py_space c = true -> c = " "%char) ->
  (char_code c < 128)%nat -> ascii_name_char c = true.
Proof.
  intros [Ha Hs] Hlt.
  destruct (is_py_space c) eqn:Esp; [rewrite (Hs eq_refl); reflexivity|].
  unfold name_allowed in Ha.
  assert (E128 : (128 <=? char_code c)%nat = false) by (apply Nat.leb_gt; lia).
  rewrite E128, Esp in Ha. unfold ascii_name_char.
  repeat rewrite orb_true_iff in *. intuition discriminate.
Qed.

(** X8: every ASCII character of a stored name is a letter, a digit, '_',
    the plain space or one of - ( ) [ ] / + . : the allow-list keeps no
    other ASCII character, and all whitespace was collapsed to ' ' before
    the filter. *)
Theorem product_new_name_chars (data r : Product) :
  product_new data = Some r ->
  Forall (fun c => (char_code c < 128)%nat -> ascii_name_char c = true)
         (list_ascii_of_string (name r)).
Proof.
  intros H. destruct (product_new_fields _ _ H) as (Hn & _).
  unfold validate_name in Hn.
  destruct (py_len (name data) <? 3)%nat; [discriminate|].
  destruct (_ || _); [discriminate|].
  injection Hn as Hn'. rewrite <- Hn'.
  eapply Forall_impl; [intros c Hc; exact (name_allowed_ascii c Hc)|].
  apply filter_str_forall, collapse_ws_aux_spaces.
Qed.

Lemma product_new_name_chars_witness :
  exists r, product_new (product_args "Fritadeira	Air
Fryer #1" None None 0) = Some r /\
    name r = "Fritadeira Air Fryer 1" /\
    Forall (fun c => (char_code c < 128)%nat -> ascii_name_char c = true)
           (list_ascii_of_string "Fritadeira Air Fryer 1").
Proof.
  match goal with |- exists r, product_new ?d = Some r /\ _ =>
    destruct (product_new d) as [r|] eqn:E; [| vm_compute in E; discriminate] end.
  assert (Hn : name r = "Fritadeira Air Fryer 1") by (vm_compute in E; inversion E; reflexivity).
  exists r. split; [reflexivity | split; [exact Hn|]].
  rewrite <- Hn. exact (product_new_name_chars _ r E).
Defined.

(** ** The classifier *)

Lemma category_scores_pos tbl text c s m :
  In (c, (s, m)) (category_scores tbl text) -> (0 < m)%nat.
Proof.
  induction tbl as [|[c' [kws w]] rest IH]; simpl; [tauto|].
  destruct (keyword_scan kws w text) as [sc m'].
  destruct (0 <? m')%nat eqn:E; simpl; [|exact IH].
  intros [H|H]; [|exact (IH H)].
  inversion H; subst. apply Nat.ltb_lt, E.
Qed.

Lemma classify_by_keywords_cases n d :
  classify_by_keywords n d = (None, 0) \/
  exists c m, classify_by_keywords n d = (Some c, keyword_confidence m) /\
              In c (map fst CATEGORY_KEYWORDS) /\ (0 < m)%nat.
Proof.
  unfold classify_by_keywords, classify_by_keywords_in.
  destruct (String.length n =? 0)%nat; [left; reflexivity|].
  destruct (category_scores CATEGORY_KEYWORDS (py_lower (n ++ " " ++ d)))
    as [|first rest] eqn:Ec; [left; reflexivity|].
  assert (Hin : In (max_by_key first rest) (first :: rest)).
  { destruct (max_by_key_in first rest) as [H|H]; [left; symmetry; exact H | right; exact H]. }
  destruct (max_by_key first rest) as [cn [sc m]].
  right. exists cn, m. split; [reflexivity|].
  rewrite <- Ec in Hin. split.
  - exact (category_scores_key _ _ _ _ Hin).
  - exact (category_scores_pos _ _ _ _ _ Hin).
Qed.

Lemma keyword_confidence_ge m : (0 < m)%nat -> 25 # 100 <= keyword_confidence m.
Proof.
  intros Hm. unfold keyword_confidence, Qltb.
  assert (H1 : inject_Z 1 <= inject_Z (Z.of_nat m)) by (rewrite <- Zle_Qle; lia).
  change (inject_Z 1) with 1 in H1.
  destruct (Qle_bool _ (95 # 100)); simpl; lra.
Qed.

Lemma CATEGORY_KEYWORDS_names :
  Forall (fun c => (String.length c =? 0)%nat = false) (map fst CATEGORY_KEYWORDS).
Proof. repeat constructor. Qed.

(** X9: a category found by keywords is one of the table's categories,
    with a confidence between 0.25 (one keyword) and 0.95. *)
Theorem classify_by_keywords_known (name description category : string) (conf : Q) :
  classify_by_keywords name description = (Some category, conf) ->
  In category (map fst CATEGORY_KEYWORDS) /\ 25 # 100 <= conf <= 95 # 100.
Proof.
  intros H. destruct (classify_by_keywords_cases name description) as [E|(c & m & E & Hin & Hm)];
    rewrite E in H; [discriminate|].
  inversion H; subst. split; [exact Hin|].
  split; [apply keyword_confidence_ge, Hm | apply keyword_confidence_le].
Qed.

Lemma classify_by_keywords_known_witness :
  classify_by_keywords "Fone de ouvido Bluetooth" "" = (Some "Eletrônicos, Áudio e Vídeo", keyword_confidence 1) /\
  In "Eletrônicos, Áudio e Vídeo" (map fst CATEGORY_KEYWORDS) /\ 25 # 100 <= keyword_confidence 1 <= 95 # 100.
Proof.
  assert (H : classify_by_keywords "Fone de ouvido Bluetooth" ""
              = (Some "Eletrônicos, Áudio e Vídeo", keyword_confidence 1)) by (vm_compute; reflexivity).
  split; [exact H |]. exact (classify_by_keywords_known _ _ _ _ H).
Defined.

Lemma classify_by_url_cases u :
  classify_by_url u = (None, 0) \/
  exists c, classify_by_url u = (Some c, 1) /\ (String.length c =? 0)%nat = false.
Proof.
  unfold classify_by_url.
  destruct (String.length u =? 0)%nat; [left; reflexivity|].
  destruct (search_category_id u) as [cid|]; [|left; reflexivity].
  destruct (assoc_get cid ML_CATEGORY_IDS) as [c|]; [|left; reflexivity].
  destruct (String.length c =? 0)%nat eqn:E; [left; reflexivity|].
  right. exists c. split; [reflexivity | exact E].
Qed.

Lemma classify_by_url_no_id u : search_category_id u = None -> classify_by_url u = (None, 0).
Proof.
  intros H. unfold classify_by_url. rewrite H.
  destruct (String.length u =? 0)%nat; reflexivity.
Qed.

Lemma classify_by_keywords_cases' n d :
  classify_by_keywords n d = (None, 0) \/
  exists c q, classify_by_keywords n d = (Some c, q) /\
              (String.length c =? 0)%nat = false /\ 25 # 100 <= q <= 95 # 100.
Proof.
  destruct (classify_by_keywords_cases n d) as [E|(c & m & E & Hin & Hm)]; [left; exact E|].
  right. exists c, (keyword_confidence m). split; [exact E|]. split.
  - exact (proj1 (Forall_forall _ _) CATEGORY_KEYWORDS_names c Hin).
  - split; [apply keyword_confidence_ge, Hm | apply keyword_confidence_le].
Qed.

(** C2 (as amended): only the first match of [/c/MLB<digits>] in the URL
    (digits taken maximally) is looked up.  When its id is in the table,
    [classify_product] returns that table's category with confidence 1.0,
    whatever the name and the description.  When it is not, the URL yields
    no category at all, whatever follows that first match (a known id later
    in the URL is not used), and the result is the keyword classification
    of the name and the description. *)
Theorem classify_product_url_id (name url description cid : string) :
  search_category_id url = Some cid ->
  (forall category, assoc_get cid ML_CATEGORY_IDS = Some category ->
     classify_product name url description = (Some category, 1)) /\
  (assoc_get cid ML_CATEGORY_IDS = None ->
     classify_by_url url = (None, 0) /\
     classify_product name url description = classify_by_keywords name description).
Proof.
  intros Hs. split.
  - intros category Hg.
    pose proof (assoc_get_forall (fun v => (String.length v =? 0)%nat = false)
                  _ _ _ ML_CATEGORY_IDS_nonempty Hg) as Hc.
    unfold classify_product, classify_by_url.
    rewrite (search_category_id_nonempty _ _ Hs), Hs, Hg, Hc.
    cbn [truthy_str]. rewrite Hc. reflexivity.
  - intros Hg.
    assert (Hu : classify_by_url url = (None, 0)).
    { unfold classify_by_url. rewrite (search_category_id_nonempty _ _ Hs), Hs, Hg.
      reflexivity. }
    split; [exact Hu|].
    unfold classify_product. rewrite Hu. cbn [truthy_str andb].
    destruct (classify_by_keywords_cases' name description) as [Ek|(ck & q & Ek & Hck & _)];
      rewrite Ek; cbn [truthy_str]; [reflexivity|].
    rewrite Hck. reflexivity.
Qed.

Lemma classify_product_url_id_witness :
  search_category_id "https://lista.mercadolivre.com.br/c/MLB1000" = Some "MLB1000" /\
  classify_product "iPhone 13 celular" "https://lista.mercadolivre.com.br/c/MLB1000" ""
  = (Some "Eletrônicos, Áudio e Vídeo", 1) /\
  search_category_id "/c/MLB1/c/MLB1000" = Some "MLB1" /\
  classify_product "iPhone 13 celular" "/c/MLB1/c/MLB1000" ""
  = classify_by_keywords "iPhone 13 celular" "".
Proof.
  assert (H1 : search_category_id "https://lista.mercadolivre.com.br/c/MLB1000" = Some "MLB1000")
    by reflexivity.
  assert (H2 : search_category_id "/c/MLB1/c/MLB1000" = Some "MLB1") by reflexivity.
  exact (conj H1
    (conj (proj1 (classify_product_url_id "iPhone 13 celular" _ "" _ H1)
             "Eletrônicos, Áudio e Vídeo" eq_refl)
    (conj H2
       (proj2 (proj2 (classify_product_url_id "iPhone 13 celular" _ "" _ H2) eq_refl))))).
Defined.

(** C2 as first stated fails: the URL below contains the token
    [/c/MLB1000] of a known id, but [re.search] stops at the first
    [/c/MLB<digits>] match, [MLB1], which is unknown; the keyword method
    then decides. *)
Lemma classify_product_url_token_claim_fails :
  str_contains "/c/MLB1000" "/c/MLB1/c/MLB1000" = true /\
  assoc_get "MLB1000" ML_CATEGORY_IDS = Some "Eletrônicos, Áudio e Vídeo" /\
  fst (classify_product "iPhone 13 celular" "/c/MLB1/c/MLB1000" "")
  = Some "Celulares e Telefones".
Proof. vm_compute. repeat split. Qed.

(** X10: [classify_product] returns a confidence in [0, 1], and the
    confidence 0 whenever it finds no category. *)
Theorem classify_product_confidence_range (name url description : string)
    (category : option string) (conf : Q) :
  classify_product name url description = (category, conf) ->
  0 <= conf <= 1 /\ (category = None -> conf = 0).
Proof.
  unfold classify_product.
  destruct (classify_by_url_cases url) as [Eu|(cu & Eu & Hcu)]; rewrite Eu;
  destruct (classify_by_keywords_cases' name description) as [Ek|(ck & q & Ek & Hck & Hq)];
    rewrite Ek; cbn [truthy_str andb negb option_eq_dec_str];
    rewrite ?Hcu, ?Hck; cbn [negb andb]; intros H.
  - inversion H; subst. split; [split; discriminate | reflexivity].
  - inversion H; subst. split; [lra | discriminate].
  - destruct (Qltb (8 # 10) 1); inversion H; subst; (split; [split; discriminate | discriminate]).
  - destruct (Qltb (8 # 10) 1); [inversion H; subst; split; [split; discriminate | discriminate]|].
    destruct (String.eqb cu ck).
    + destruct (Qltb 1 q); inversion H; subst; (split; [lra | discriminate]).
    + destruct (Qltb q 1); inversion H; subst; (split; [lra | discriminate]).
Qed.

Lemma classify_product_confidence_range_witness :
  classify_product "Fone de ouvido Bluetooth" "https://www.mercadolivre.com.br/p/MLB1" ""
    = (Some "Eletrônicos, Áudio e Vídeo", keyword_confidence 1) /\
  0 <= keyword_confidence 1 <= 1 /\
  (Some "Eletrônicos, Áudio e Vídeo" = None -> keyword_confidence 1 = 0).
Proof.
  assert (H : classify_product "Fone de ouvido Bluetooth" "https://www.mercadolivre.com.br/p/MLB1" ""
              = (Some "Eletrônicos, Áudio e Vídeo", keyword_confidence 1)) by (vm_compute; reflexivity).
  split; [exact H |]. exact (classify_product_confidence_range _ _ _ _ _ H).
Defined.

(** X11: when the URL has no [/c/MLB<digits>] segment, [classify_product]
    is exactly the keyword classification of the name and description. *)
Theorem classify_product_without_url_id (name url description : string) :
  search_category_id url = None ->
  classify_product name url description = classify_by_keywords name description.
Proof.
  intros H. unfold classify_product. rewrite (classify_by_url_no_id _ H).
  cbn [truthy_str andb].
  destruct (classify_by_keywords_cases' name description) as [Ek|(ck & q & Ek & Hck & _)];
    rewrite Ek; cbn [truthy_str]; [reflexivity|].
  rewrite Hck. reflexivity.
Qed.

Lemma classify_product_without_url_id_witness :
  search_category_id "https://www.mercadolivre.com.br/iphone/p/MLB1" = None /\
  classify_product "iPhone 13 celular" "https://www.mercadolivre.com.br/iphone/p/MLB1" ""
  = classify_by_keywords "iPhone 13 celular" "".
Proof.
  assert (H : search_category_id "https://www.mercadolivre.com.br/iphone/p/MLB1" = None)
    by reflexivity.
  split; [exact H |]. exact (classify_product_without_url_id _ _ _ H).
Defined.

(** ** [str.lower()] and the keyword flags *)

Lemma char_code_of_nat n : (n < 256)%nat -> char_code (ascii_of_nat n) = n.
Proof. intros H. unfold char_code. apply nat_ascii_embedding, H. Qed.

Lemma char_code_lt c : (char_code c < 256)%nat.
Proof.
  unfold char_code. destruct c as [[] [] [] [] [] [] [] []]; cbv; lia.
Qed.

(** The first character of a lowered string is the original one or, for
    an ASCII capital, its small form. *)
Lemma py_lower_head b t :
  exists b' t', py_lower (String b t) = String b' t' /\
    (b' = b \/ ((65 <= char_code b <= 90)%nat /\ char_code b' = (char_code b + 32)%nat)).
Proof.
  cbn [py_lower].
  destruct ((65 <=? char_code b) && (char_code b <=? 90))%nat eqn:E1.
  - apply andb_true_iff in E1 as [E1 E2]. apply Nat.leb_le in E1, E2.
    do 2 eexists. split; [reflexivity|]. right. split; [lia|].
    apply char_code_of_nat. lia.
  - destruct (char_code b =? 195)%nat.
    + destruct t as [|c t']; [do 2 eexists; split; [reflexivity | left; reflexivity]|].
      destruct (_ && _ && _)%nat; do 2 eexists; (split; [reflexivity | left; reflexivity]).
    + do 2 eexists. split; [reflexivity | left; reflexivity].
Qed.

Lemma py_lower_cap a r :
  ((65 <=? char_code a) && (char_code a <=? 90))%nat = true ->
  py_lower (String a r) = String (ascii_of_nat (char_code a + 32)) (py_lower r).
Proof. intros Ea. cbn [py_lower]. rewrite Ea. reflexivity. Qed.

Lemma py_lower_other a r :
  ((65 <=? char_code a) && (char_code a <=? 90))%nat = false ->
  (char_code a =? 195)%nat = false ->
  py_lower (String a r) = String a (py_lower r).
Proof. intros Ea E. cbn [py_lower]. rewrite Ea, E. reflexivity. Qed.

Lemma py_lower_195_nil a :
  ((65 <=? char_code a) && (char_code a <=? 90))%nat = false ->
  (char_code a =? 195)%nat = true -> py_lower (String a EmptyString) = String a EmptyString.
Proof. intros Ea E. cbn [py_lower]. rewrite Ea, E. reflexivity. Qed.

Lemma py_lower_195_in a b r :
  ((65 <=? char_code a) && (char_code a <=? 90))%nat = false ->
  (char_code a =? 195)%nat = true ->
  ((128 <=? char_code b) && (char_code b <=? 158) && negb (char_code b =? 151))%nat = true ->
  py_lower (String a (String b r))
  = String a (String (ascii_of_nat (char_code b + 32)) (py_lower r)).
Proof. intros Ea E195 Eb. cbn [py_lower]. rewrite Ea, E195, Eb. reflexivity. Qed.

Lemma py_lower_195 a b r :
  ((65 <=? char_code a) && (char_code a <=? 90))%nat = false ->
  (char_code a =? 195)%nat = true ->
  ((128 <=? char_code b) && (char_code b <=? 158) && negb (char_code b =? 151))%nat = false ->
  py_lower (String a (String b r)) = String a (py_lower (String b r)).
Proof.
  intros Ea E195 Eb. cbn [py_lower] in *. rewrite Ea, E195, Eb. reflexivity.
Qed.

Lemma py_lower_length s : String.length (py_lower s) = String.length s.
Proof.
  assert (G : forall n s, (String.length s <= n)%nat ->
                          String.length (py_lower s) = String.length s).
  { induction n as [|n IH]; intros [|a r] Hl; cbn [String.length] in *; try reflexivity; try lia.
    destruct ((65 <=? char_code a) && (char_code a <=? 90))%nat eqn:Ea.
    { rewrite (py_lower_cap _ _ Ea). cbn [String.length]. rewrite IH; [reflexivity | lia]. }
    destruct (char_code a =? 195)%nat eqn:E195.
    2: { rewrite (py_lower_other _ _ Ea E195). cbn [String.length]. rewrite IH; [reflexivity | lia]. }
    destruct r as [|b r']; [rewrite (py_lower_195_nil _ Ea E195); reflexivity|].
    destruct ((128 <=? char_code b) && (char_code b <=? 158) && negb (char_code b =? 151))%nat
      eqn:Eb.
    - rewrite (py_lower_195_in _ _ _ Ea E195 Eb). cbn [String.length] in *.
      rewrite IH; lia.
    - rewrite (py_lower_195 _ _ _ Ea E195 Eb). cbn [String.length].
      rewrite IH; [reflexivity | lia]. }
  apply (G (String.length s)). lia.
Qed.

Lemma py_lower_idem s : py_lower (py_lower s) = py_lower s.
Proof.
  assert (G : forall n s, (String.length s <= n)%nat -> py_lower (py_lower s) = py_lower s).
  { induction n as [|n IH]; intros [|a r] Hl; cbn [String.length] in *; try reflexivity; try lia.
    destruct ((65 <=? char_code a) && (char_code a <=? 90))%nat eqn:Ea.
    { apply andb_true_iff in Ea as [Ea1 Ea2]. apply Nat.leb_le in Ea1, Ea2.
      rewrite py_lower_cap by (apply andb_true_iff; split; apply Nat.leb_le; lia).
      rewrite py_lower_other; [rewrite IH by lia; reflexivity | |];
        rewrite char_code_of_nat by lia.
      - apply andb_false_iff; right; apply Nat.leb_gt; lia.
      - apply Nat.eqb_neq; lia. }
    destruct (char_code a =? 195)%nat eqn:E195.
    2: { rewrite !(py_lower_other _ _ Ea E195). rewrite IH by lia. reflexivity. }
    destruct r as [|b r']; [rewrite !(py_lower_195_nil _ Ea E195); reflexivity|].
    destruct ((128 <=? char_code b) && (char_code b <=? 158) && negb (char_code b =? 151))%nat
      eqn:Eb.
    - rewrite (py_lower_195_in _ _ _ Ea E195 Eb).
      apply andb_true_iff in Eb as [Eb _]. apply andb_true_iff in Eb as [Eb1 Eb2].
      apply Nat.leb_le in Eb1, Eb2.
      rewrite py_lower_195; [| exact Ea | exact E195 |].
      2: { rewrite char_code_of_nat by lia.
           apply andb_false_iff; left; apply andb_false_iff; right; apply Nat.leb_gt; lia. }
      rewrite py_lower_other; [| |].
      + cbn [String.length] in Hl. rewrite IH by lia. reflexivity.
      + rewrite char_code_of_nat by lia. apply andb_false_iff; right; apply Nat.leb_gt; lia.
      + rewrite char_code_of_nat by lia. apply Nat.eqb_neq; lia.
    - destruct (py_lower_head b r') as (b' & t' & Eh & Hb').
      rewrite (py_lower_195 a b r' Ea E195 Eb), Eh.
      assert (Eb' : ((128 <=? char_code b') && (char_code b' <=? 158)
                     && negb (char_code b' =? 151))%nat = false).
      { destruct Hb' as [->|[Hr Hc]]; [exact Eb|].
        rewrite Hc. apply andb_false_iff; left; apply andb_false_iff; left.
        apply Nat.leb_gt; lia. }
      rewrite (py_lower_195 a b' t' Ea E195 Eb'). rewrite <- Eh.
      rewrite IH by (cbn [String.length] in *; lia).
      reflexivity. }
  apply (G (String.length s)). lia.
Qed.

(** X12: the promotion and free-shipping flags do not depend on letter
    case: lower-casing the text first changes neither. *)
Theorem keyword_flags_case_insensitive (text : string) :
  is_promotion_indicator (py_lower text) = is_promotion_indicator text /\
  has_free_shipping (py_lower text) = has_free_shipping text.
Proof.
  unfold is_promotion_indicator, has_free_shipping, any_keyword.
  rewrite py_lower_idem, py_lower_length. split; reflexivity.
Qed.

(** ** [extract_product_id] *)

Lemma string_app_assoc (u v w : string) : (u ++ v) ++ w = u ++ (v ++ w).
Proof. induction u as [|a u IH]; simpl; [reflexivity | rewrite IH; reflexivity]. Qed.

Lemma substring_full s : String.substring 0 (String.length s) s = s.
Proof. induction s as [|a s IH]; simpl; [reflexivity | rewrite IH; reflexivity]. Qed.

Lemma drop_str_cons n a s : drop_str (S n) (String a s) = drop_str n s.
Proof. reflexivity. Qed.

Lemma prefix_split p s :
  String.prefix p s = true -> s = p ++ drop_str (String.length p) s.
Proof.
  revert s; induction p as [|a p IH]; intros s H.
  - unfold drop_str. simpl. rewrite Nat.sub_0_r, substring_full. reflexivity.
  - destruct s as [|b s]; [discriminate|].
    simpl in H. destruct (ascii_dec a b) as [<-|]; [|discriminate].
    cbn [String.length String.append]. rewrite drop_str_cons, <- (IH s H). reflexivity.
Qed.

Lemma drop_str_app u t : drop_str (String.length u) (u ++ t) = t.
Proof.
  induction u as [|a u IH]; [|exact IH].
  unfold drop_str. simpl. rewrite Nat.sub_0_r. apply substring_full.
Qed.

Lemma digit_run_split r : exists t, r = digit_run r ++ t.
Proof.
  induction r as [|a r [t IH]]; [exists EmptyString; reflexivity|].
  cbn [digit_run]. destruct (is_digit a).
  - exists t. cbn [String.append]. rewrite <- IH. reflexivity.
  - exists (String a r). reflexivity.
Qed.

Lemma prefix_app_self x w : String.prefix x (x ++ w) = true.
Proof.
  induction x as [|a x IH]; [destruct w; reflexivity|].
  simpl. destruct (ascii_dec a a); [exact IH | congruence].
Qed.

Lemma str_contains_app_l x u v : str_contains x v = true -> str_contains x (u ++ v) = true.
Proof.
  induction u as [|a u IH]; intros H; [exact H|].
  simpl. rewrite (IH H). apply orb_true_r.
Qed.

Lemma str_contains_start x w : str_contains x (x ++ w) = true.
Proof.
  destruct x as [|a x]; [destruct w; reflexivity|].
  pose proof (prefix_app_self (String a x) w) as H.
  cbn [String.append str_contains] in *. rewrite H. reflexivity.
Qed.

Lemma str_contains_mid x u w : str_contains x (u ++ x ++ w) = true.
Proof. apply str_contains_app_l, str_contains_start. Qed.

(** A match of [ML[AB]\d+] is a prefix of the searched text. *)
Lemma match_mlab_split s m : match_mlab s = Some m -> exists t, s = m ++ t.
Proof.
  unfold match_mlab. destruct (String.prefix "ML" s) eqn:Ep; [|discriminate].
  pose proof (prefix_split _ _ Ep) as Hs. cbn [String.length] in Hs.
  destruct (drop_str 2 s) as [|x r] eqn:Ed; [discriminate|].
  destruct (Ascii.eqb x "A" || Ascii.eqb x "B"); [|discriminate].
  destruct (String.length (digit_run r) =? 0)%nat; [discriminate|].
  intros H; injection H as <-. destruct (digit_run_split r) as [t Ht].
  exists t. rewrite Hs at 1. rewrite Ht at 1. reflexivity.
Qed.

Lemma match_item_id_after_split s m g :
  match_item_id_after s = Some (m, g) -> (exists t, s = m ++ t) /\ (exists u, m = u ++ g).
Proof.
  unfold match_item_id_after. destruct (String.prefix "id" s) eqn:Ep; [|discriminate].
  pose proof (prefix_split _ _ Ep) as Hs. cbn [String.length] in Hs.
  destruct (drop_str 2 s) as [|x r] eqn:Ed; [discriminate|].
  destruct (Ascii.eqb x "=" || Ascii.eqb x ":"); [|discriminate].
  destruct (String.length (digit_run r) =? 0)%nat; [discriminate|].
  intros H; injection H as <- <-. destruct (digit_run_split r) as [t Ht]. split.
  - exists t. rewrite Hs at 1. rewrite Ht at 1. reflexivity.
  - exists (String "i" (String "d" (String x EmptyString))). reflexivity.
Qed.

Lemma match_item_id_split s m g :
  match_item_id s = Some (m, g) -> (exists t, s = m ++ t) /\ (exists u, m = u ++ g).
Proof.
  unfold match_item_id. destruct (String.prefix "item" s) eqn:Ep; [|discriminate].
  pose proof (prefix_split _ _ Ep) as Hs. cbn [String.length] in Hs.
  set (r := drop_str 4 s) in *.
  destruct r as [|x r'] eqn:Er.
  - cbn. discriminate.
  - assert (Hafter : forall m0 g0, match_item_id_after (String x r') = Some (m0, g0) ->
              (exists t, s = ("item" ++ m0) ++ t) /\ (exists u, "item" ++ m0 = u ++ g0)).
    { intros m0 g0 Ea. destruct (match_item_id_after_split _ _ _ Ea) as [[t Ht] [u Hu]]. split.
      - exists t. rewrite Hs at 1. rewrite Ht. reflexivity.
      - exists ("item" ++ u). rewrite Hu. reflexivity. }
    destruct (Ascii.eqb x "_" || Ascii.eqb x "-").
    + destruct (match_item_id_after r') as [[m0 g0]|] eqn:Ea.
      * intros H; injection H as <- <-.
        destruct (match_item_id_after_split _ _ _ Ea) as [[t Ht] [u Hu]]. split.
        -- exists t. rewrite Hs at 1. rewrite Ht. reflexivity.
        -- exists ("item" ++ String x u). rewrite Hu. reflexivity.
      * destruct (match_item_id_after (String x r')) as [[m0 g0]|] eqn:Ea2; [|discriminate].
        intros H; injection H as <- <-. exact (Hafter _ _ eq_refl).
    + destruct (match_item_id_after (String x r')) as [[m0 g0]|] eqn:Ea2; [|discriminate].
      intros H; injection H as <- <-. exact (Hafter _ _ eq_refl).
Qed.

Lemma match_long_digits_split s m g :
  match_long_digits s = Some (m, g) -> (exists t, s = m ++ t) /\ (exists u, m = u ++ g).
Proof.
  unfold match_long_digits. destruct s as [|x r]; [discriminate|].
  destruct (Ascii.eqb x "/"); [|discriminate].
  destruct (10 <=? String.length (digit_run r))%nat; [|discriminate].
  intros H; inversion H; subst. destruct (digit_run_split r) as [t Ht]. split.
  - exists t. rewrite Ht at 1. reflexivity.
  - exists (String x EmptyString). reflexivity.
Qed.

(** A match found at the start of a text: group 0 is a prefix of it and
    group 1, when present, ends group 0. *)
Lemma pattern_match_at_split p s g0 g1 :
  pattern_match_at p s = Some (g0, g1) ->
  (exists t, s = g0 ++ t) /\ (forall g, g1 = Some g -> exists u, g0 = u ++ g).
Proof.
  destruct p; cbn [pattern_match_at].
  - destruct (match_mlab s) as [m|] eqn:E; [|discriminate].
    intros H; inversion H; subst. split; [exact (match_mlab_split _ _ E) | discriminate].
  - destruct (String.prefix "/p/" s) eqn:Ep; [|discriminate].
    destruct (match_mlab (drop_str 3 s)) as [m|] eqn:E; [|discriminate].
    intros H; inversion H; subst. split; [|discriminate].
    destruct (match_mlab_split _ _ E) as [t Ht]. exists t.
    rewrite (prefix_split _ _ Ep) at 1. cbn [String.length]. rewrite Ht. reflexivity.
  - destruct (match_item_id s) as [[m g]|] eqn:E; [|discriminate].
    intros H; inversion H; subst. destruct (match_item_id_split _ _ _ E) as [Hs Hg].
    split; [exact Hs | intros g' Hg'; inversion Hg'; subst; exact Hg].
  - destruct (match_long_digits s) as [[m g]|] eqn:E; [|discriminate].
    intros H; inversion H; subst. destruct (match_long_digits_split _ _ _ E) as [Hs Hg].
    split; [exact Hs | intros g' Hg'; inversion Hg'; subst; exact Hg].
Qed.

Lemma re_search_split p s m :
  re_search p s = Some m -> exists u v, s = u ++ v /\ pattern_match_at p v = Some m.
Proof.
  induction s as [|a r IH]; cbn [re_search].
  - destruct (pattern_match_at p EmptyString) eqn:E; [|discriminate].
    intros H; inversion H; subst. exists EmptyString, EmptyString. split; [reflexivity | exact E].
  - destruct (pattern_match_at p (String a r)) eqn:E.
    + intros H; inversion H; subst. exists EmptyString, (String a r). split; [reflexivity | exact E].
    + intros H. destruct (IH H) as (u & v & Hs & Hm).
      exists (String a u), v. split; [rewrite Hs; reflexivity | exact Hm].
Qed.

Lemma re_search_cons p a r : re_search p r <> None -> re_search p (String a r) <> None.
Proof.
  intros H. cbn [re_search]. destruct (pattern_match_at p (String a r)); [discriminate | exact H].
Qed.

Lemma re_search_mlab_at s m : match_mlab s = Some m -> re_search P_MLAB s <> None.
Proof.
  intros H. destruct s as [|a r]; cbn [re_search pattern_match_at]; rewrite H; discriminate.
Qed.

(** Every match of [/p/ML[AB]\d+] contains a match of [ML[AB]\d+]. *)
Lemma re_search_p_mlab s : re_search P_P_MLAB s <> None -> re_search P_MLAB s <> None.
Proof.
  induction s as [|a r IH]; cbn [re_search pattern_match_at].
  - intros H. exfalso. apply H. reflexivity.
  - destruct (String.prefix "/p/" (String a r)) eqn:Ep.
    + destruct (match_mlab (drop_str 3 (String a r))) as [m|] eqn:E.
      * intros _. pose proof (prefix_split _ _ Ep) as Hs. cbn [String.length] in Hs.
        set (t := drop_str 3 (String a r)) in *.
        change (re_search P_MLAB (String a r) <> None).
        rewrite Hs. cbn [String.append].
        apply re_search_cons, re_search_cons, re_search_cons, (re_search_mlab_at _ _ E).
      * cbn [option_map]. intros H. apply (re_search_cons _ _ _ (IH H)).
    + intros H. apply (re_search_cons _ _ _ (IH H)).
Qed.

(** X13: [extract_product_id] never raises: the [/p/ML[AB]\d+] pattern
    (the only one used with [group(1)] that has no group) can only be
    tried when [ML[AB]\d+] has already failed, and then it fails too. *)
Theorem extract_product_id_never_raises (url : string) :
  extract_product_id url <> None.
Proof.
  unfold extract_product_id.
  destruct (String.length url =? 0)%nat; [discriminate|].
  unfold id_patterns. cbn [extract_id_loop pattern_text].
  destruct (re_search P_MLAB url) as [[g0 g1]|] eqn:E1; [cbn; discriminate|].
  destruct (re_search P_P_MLAB url) as [[g0 g1]|] eqn:E2.
  { exfalso. apply (re_search_p_mlab url); [rewrite E2; discriminate | exact E1]. }
  destruct (re_search P_ITEM_ID url) as [[g0 g1]|] eqn:E3; [cbn; discriminate|].
  destruct (re_search P_LONG_DIGITS url) as [[g0 g1]|] eqn:E4; [|discriminate].
  cbn [String.prefix ascii_dec].
  destruct (re_search_split _ _ _ E4) as (u & v & _ & Hm).
  cbn [pattern_match_at] in Hm.
  destruct (match_long_digits v) as [[m g]|]; [|discriminate].
  inversion Hm; subst. cbn. discriminate.
Qed.

Lemma extract_product_id_occurs (url pid : string) :
  extract_product_id url = Some (Some pid) -> str_contains pid url = true.
Proof.
  unfold extract_product_id.
  destruct (String.length url =? 0)%nat; [discriminate|].
  generalize id_patterns as ps.
  induction ps as [|p ps IH]; cbn [extract_id_loop]; [discriminate|].
  destruct (re_search p url) as [[g0 g1]|] eqn:E; [|exact IH].
  destruct (re_search_split _ _ _ E) as (u & v & Hs & Hm).
  destruct (pattern_match_at_split _ _ _ _ Hm) as [[t Ht] Hg].
  rewrite Hs, Ht.
  destruct (String.prefix "/" (pattern_text p)).
  - destruct g1 as [g|]; [|discriminate]. intros H; inversion H; subst.
    destruct (Hg pid eq_refl) as [w Hw]. rewrite Hw, string_app_assoc.
    apply str_contains_app_l, str_contains_mid.
  - intros H; inversion H; subst. apply str_contains_mid.
Qed.

(** X14: a product id returned by [extract_product_id] occurs in the URL. *)
Theorem extract_product_id_in_url (url pid : string) :
  extract_product_id url = Some (Some pid) -> str_contains pid url = true.
Proof. apply extract_product_id_occurs. Qed.

Lemma extract_product_id_in_url_witness :
  extract_product_id "https://www.mercadolivre.com.br/x/12345678901" = Some (Some "12345678901") /\
  str_contains "12345678901" "https://www.mercadolivre.com.br/x/12345678901" = true.
Proof.
  assert (H : extract_product_id "https://www.mercadolivre.com.br/x/12345678901"
              = Some (Some "12345678901")) by reflexivity.
  split; [exact H |]. exact (extract_product_id_in_url _ _ H).
Defined.

(** ** The single-product extractor *)

(** X15: the name loop only accepts a text longer than 10 characters that
    contains none of the words "economiza", "confira", "ofertas". *)
Theorem select_name_accepts (hits : list (option (string * string))) (text : string) :
  select_name hits = Some text ->
  (10 < py_len text)%nat /\ any_keyword ["economiza"; "confira"; "ofertas"] text = false.
Proof.
  induction hits as [|[[txt title]|] rest IH]; cbn [select_name]; [discriminate | | exact IH].
  set (t := if (String.length txt =? 0)%nat then title else txt).
  destruct (negb (String.length t =? 0)%nat && (10 <? py_len t)%nat
            && negb (any_keyword ["economiza"; "confira"; "ofertas"] t)) eqn:E; [|exact IH].
  intros H; injection H as <-.
  apply andb_true_iff in E as [E E3]. apply andb_true_iff in E as [_ E2].
  split; [apply Nat.ltb_lt, E2 | apply negb_true_iff, E3].
Qed.

Lemma select_name_accepts_witness :
  select_name [Some ("Confira as ofertas", ""); Some ("", "Fritadeira Air Fryer Mondial 4L")]
    = Some "Fritadeira Air Fryer Mondial 4L" /\
  (10 < py_len "Fritadeira Air Fryer Mondial 4L")%nat /\
  any_keyword ["economiza"; "confira"; "ofertas"] "Fritadeira Air Fryer Mondial 4L" = false.
Proof.
  assert (H : select_name [Some ("Confira as ofertas", ""); Some ("", "Fritadeira Air Fryer Mondial 4L")]
              = Some "Fritadeira Air Fryer Mondial 4L") by reflexivity.
  split; [exact H |]. exact (select_name_accepts _ _ H).
Defined.

Lemma select_url_spec hits u :
  select_url hits = Some u ->
  String.prefix "http" u = true /\ (str_contains "ML" u || str_contains "/p/" u) = true /\
  exists href, (String.length href =? 0)%nat = false /\ (u = href \/ u = BASE_URL ++ href).
Proof.
  induction hits as [|[href|] rest IH]; cbn [select_url]; [discriminate | | exact IH].
  destruct (negb (String.length href =? 0)%nat && (str_contains "ML" href || str_contains "/p/" href))
    eqn:E; [|exact IH].
  apply andb_true_iff in E as [E1 E2]. apply negb_true_iff in E1.
  intros H; injection H as <-.
  destruct (String.prefix "http" href) eqn:Ep.
  - split; [exact Ep | split; [exact E2 |]]. exists href. split; [exact E1 | left; reflexivity].
  - split; [reflexivity|]. split.
    + apply orb_true_iff in E2 as [E2|E2]; apply orb_true_iff; [left|right];
        exact (str_contains_app_l _ BASE_URL _ E2).
    + exists href. split; [exact E1 | right; reflexivity].
Qed.

(** X16: the link loop returns a URL that starts with "http" and contains
    "ML" or "/p/". *)
Theorem select_url_accepts (hits : list (option string)) (u : string) :
  select_url hits = Some u ->
  String.prefix "http" u = true /\ (str_contains "ML" u || str_contains "/p/" u) = true.
Proof. intros H. destruct (select_url_spec _ _ H) as (H1 & H2 & _). split; assumption. Qed.

Lemma select_url_accepts_witness :
  select_url [Some ""; Some "/fritadeira/p/MLB19604306"]
    = Some (BASE_URL ++ "/fritadeira/p/MLB19604306") /\
  String.prefix "http" (BASE_URL ++ "/fritadeira/p/MLB19604306") = true /\
  (str_contains "ML" (BASE_URL ++ "/fritadeira/p/MLB19604306")
   || str_contains "/p/" (BASE_URL ++ "/fritadeira/p/MLB19604306")) = true.
Proof.
  assert (H : select_url [Some ""; Some "/fritadeira/p/MLB19604306"]
              = Some (BASE_URL ++ "/fritadeira/p/MLB19604306")) by reflexivity.
  split; [exact H |]. exact (select_url_accepts _ _ H).
Defined.

Lemma extract_single_product_parts e r :
  extract_single_product e = Some r ->
  exists purl data,
    select_url (el_link_hits e) = Some purl /\
    product_new data = Some r /\
    url data = Some purl /\
    extract_product_id purl = Some (product_id data) /\
    (original_price data <> None -> is_promotion data = true) /\
    truthy (price data) = true.
Proof.
  unfold extract_single_product.
  destruct (select_name (el_name_hits e)) as [n|]; [|discriminate].
  cbv zeta.
  destruct (truthy (select_price (el_price_hits e) None)) eqn:Et;
    [| rewrite andb_false_r; simpl; discriminate].
  destruct (select_url (el_link_hits e)) as [purl|] eqn:Eu;
    [| rewrite andb_false_r; simpl; discriminate].
  destruct (negb _); [discriminate|].
  destruct (if (py_len purl <? 200)%nat then el_page_category e else (None, 0))
    as [rc rconf].
  destruct (classify_product n purl "") as [fc fconf].
  match goal with |- context [let '(_, _) := ?x in _] => destruct x as [c cc] end.
  destruct (extract_product_id purl) as [pid|] eqn:Ep; [|discriminate].
  intros H. exists purl. eexists. split; [reflexivity|]. split; [exact H|]. cbn.
  split; [reflexivity | split; [exact Ep | split; [| exact Et]]].
  destruct (select_original _ _); [|congruence].
  intros _. rewrite orb_true_r. reflexivity.
Qed.

(** X17: every record the extractor returns with an original price is
    marked as a promotion. *)
Theorem extract_single_product_promotion (e : Element) (r : Product) :
  extract_single_product e = Some r -> original_price r <> None -> is_promotion r = true.
Proof.
  intros H Ho. destruct (extract_single_product_parts _ _ H) as (purl & data & _ & Hn & _ & _ & Hp & _).
  destruct (product_new_fields _ _ Hn) as (_ & _ & Hov & _ & _ & Hpr & _).
  rewrite Hpr. apply Hp. intros Hd. apply Ho.
  rewrite Hd in Hov. cbn in Hov. injection Hov as <-. reflexivity.
Qed.

Lemma extract_single_product_promotion_witness :
  exists r, extract_single_product air_fryer_element = Some r /\
            original_price r <> None /\ is_promotion r = true.
Proof.
  destruct (extract_single_product air_fryer_element) as [r|] eqn:E;
    [| vm_compute in E; discriminate].
  assert (Ho : original_price r <> None)
    by (vm_compute in E; inversion E; discriminate).
  exists r. split; [reflexivity | split; [exact Ho |]].
  exact (extract_single_product_promotion _ r E Ho).
Defined.

Lemma validate_url_scheme u0 u :
  validate_url (Some u0) = Some u -> (String.length u0 =? 0)%nat = false ->
  String.prefix "http://" u || String.prefix "https://" u = true /\
  (forall x, str_contains x u0 = true -> str_contains x u = true).
Proof.
  unfold validate_url. intros H E0. rewrite E0 in H.
  destruct (String.prefix "http://" u0 || String.prefix "https://" u0) eqn:Ep;
    injection H as <-.
  - split; [exact Ep | auto].
  - split; [reflexivity | intros x Hx; exact (str_contains_app_l _ BASE_URL _ Hx)].
Qed.

(** X18: every record the extractor returns has a URL starting with
    [http://] or [https://], and its product id, when set, occurs in that
    URL. *)
Theorem extract_single_product_url (e : Element) (r : Product) :
  extract_single_product e = Some r ->
  exists u, url r = Some u /\
    String.prefix "http://" u || String.prefix "https://" u = true /\
    (forall pid, product_id r = Some pid -> str_contains pid u = true).
Proof.
  intros H.
  destruct (extract_single_product_parts _ _ H) as (purl & data & Hs & Hn & Hu & Hid & _).
  destruct (product_new_fields _ _ Hn) as (_ & _ & _ & _ & Hurl & _ & Hpid).
  rewrite Hu in Hurl.
  destruct (select_url_spec _ _ Hs) as (_ & _ & href & Eh & Hpurl).
  assert (E0 : (String.length purl =? 0)%nat = false).
  { destruct Hpurl as [->| ->]; [exact Eh | reflexivity]. }
  destruct (validate_url (Some purl)) as [u|] eqn:Ev.
  2: { unfold validate_url in Ev. rewrite E0 in Ev. destruct (_ || _); discriminate Ev. }
  destruct (validate_url_scheme _ _ Ev E0) as [Hsch Hsub].
  exists u. split; [exact Hurl | split; [exact Hsch |]].
  intros pid Hp. apply Hsub. rewrite Hpid in Hp. subst.
  apply extract_product_id_occurs. rewrite Hid, Hp. reflexivity.
Qed.

Lemma extract_single_product_url_witness :
  exists r, extract_single_product air_fryer_element = Some r /\
    exists u, url r = Some u /\
      String.prefix "http://" u || String.prefix "https://" u = true /\
      (forall pid, product_id r = Some pid -> str_contains pid u = true).
Proof.
  destruct (extract_single_product air_fryer_element) as [r|] eqn:E;
    [| vm_compute in E; discriminate].
  exists r. split; [reflexivity |]. exact (extract_single_product_url _ r E).
Defined.

(** ** [DataProcessor.extract_rating] and [extract_reviews_count]
    (validators.py 158-195) *)

(** [(\d+[,.]\d+)] at the start of [s].  The greedy first [\d+] cannot
    give a digit back to [[,.]], so a match is the maximal run of digits,
    a separator and the maximal run of digits after it. *)
Definition match_decimal_at (s : string) : option string :=
  let ds := digit_run s in
  if (String.length ds =? 0)%nat then None
  else
    match drop_str (String.length ds) s with
    | String c r =>
        if Ascii.eqb c "," || Ascii.eqb c "." then
          let ds2 := digit_run r in
          if (String.length ds2 =? 0)%nat then None else Some (ds ++ String c ds2)
        else None
    | EmptyString => None
    end.

(** [re.search(r'(\d+[,.]\d+)', s).group(1)]: the leftmost match. *)
Fixpoint search_decimal (s : string) : option string :=
  match match_decimal_at s with
  | Some m => Some m
  | None =>
      match s with
      | EmptyString => None
      | String _ r => search_decimal r
      end
  end.

(** [re.search(r'(\d+)', s).group(1)]: the first maximal run of digits. *)
Fixpoint search_digits (s : string) : option string :=
  match s with
  | EmptyString => None
  | String d r => if is_digit d then Some (digit_run s) else search_digits r
  end.

(** [extract_rating]; [None] is Python's [None] (a [ValueError] is caught
    and falls through). *)
Definition extract_rating (rating_text : string) : option Q :=
  if (String.length rating_text =? 0)%nat then None
  else
    let integer_match :=
      match search_digits rating_text with
      | Some g =>
          match py_int g with
          | Some rating => if (rating <=? 5)%Z then Some (inject_Z rating) else None
          | None => None
          end
      | None => None
      end in
    match search_decimal rating_text with
    | Some g =>
        match py_float (replace_char "," "." g) with
        | Some v => Some v
        | None => integer_match
        end
    | None => integer_match
    end.

(** [extract_reviews_count] *)
Definition extract_reviews_count (reviews_text : string) : option Z :=
  if (String.length reviews_text =? 0)%nat then None
  else
    let numbers := filter_str is_digit reviews_text in
    if (String.length numbers =? 0)%nat then None
    else py_int numbers.

Example extract_rating_ex1 : extract_rating "4,7 de 5" = Some (47 # 10).
Proof. reflexivity. Qed.
Example extract_rating_ex2 : extract_rating "Nota 8" = None.
Proof. reflexivity. Qed.
Example extract_reviews_count_ex1 : extract_reviews_count "(1.234 avaliações)" = Some 1234%Z.
Proof. reflexivity. Qed.

Lemma filter_digits_all t : all_digits (filter_str is_digit t) = true.
Proof.
  unfold all_digits. induction t as [|d r IH]; [reflexivity|].
  cbn [filter_str]. destruct (is_digit d) eqn:E; [|exact IH].
  cbn [list_ascii_of_string forallb]. rewrite E, IH. reflexivity.
Qed.

Lemma filter_digits_empty t :
  (String.length (filter_str is_digit t) =? 0)%nat = negb (existsb is_digit (list_ascii_of_string t)).
Proof.
  induction t as [|d r IH]; [reflexivity|].
  cbn [filter_str list_ascii_of_string existsb]. destruct (is_digit d); [reflexivity | exact IH].
Qed.

Lemma extract_reviews_count_eq t :
  extract_reviews_count t =
  if (String.length (filter_str is_digit t) =? 0)%nat then None
  else py_int (filter_str is_digit t).
Proof. unfold extract_reviews_count. destruct t; reflexivity. Qed.

(** X19: [extract_reviews_count] returns [None] exactly when the text has
    no digit. *)
Theorem extract_reviews_count_none_iff (text : string) :
  extract_reviews_count text = None <-> existsb is_digit (list_ascii_of_string text) = false.
Proof.
  rewrite extract_reviews_count_eq. unfold py_int.
  rewrite filter_digits_all, filter_digits_empty.
  destruct (existsb is_digit (list_ascii_of_string text)); cbn [negb].
  - split; discriminate.
  - split; reflexivity.
Qed.

(** X20: the review count depends only on the digits of the text, in
    order: texts with the same digits give the same count. *)
Theorem extract_reviews_count_digits (t1 t2 : string) :
  filter_str is_digit t1 = filter_str is_digit t2 ->
  extract_reviews_count t1 = extract_reviews_count t2.
Proof. intros H. rewrite !extract_reviews_count_eq, H. reflexivity. Qed.

Lemma extract_reviews_count_digits_witness :
  filter_str is_digit "(1.234 avaliações)" = filter_str is_digit "1234" /\
  extract_reviews_count "(1.234 avaliações)" = extract_reviews_count "1234".
Proof.
  assert (H : filter_str is_digit "(1.234 avaliações)" = filter_str is_digit "1234")
    by reflexivity.
  split; [exact H |]. exact (extract_reviews_count_digits _ _ H).
Defined.

Lemma match_decimal_at_sep s m :
  match_decimal_at s = Some m -> has_char "," s || has_char "." s = true.
Proof.
  unfold match_decimal_at.
  destruct (String.length (digit_run s) =? 0)%nat; [discriminate|].
  pose proof (digit_run_split s) as [t Ht].
  assert (Hd : drop_str (String.length (digit_run s)) s = t)
    by (rewrite Ht at 2; apply drop_str_app).
  rewrite Hd. destruct t as [|c r]; [discriminate|].
  destruct (Ascii.eqb c "," || Ascii.eqb c ".") eqn:Ec; [|discriminate]. intros _.
  assert (G : forall u, has_char "," (u ++ String c r) || has_char "." (u ++ String c r) = true).
  { induction u as [|a u IH].
    - cbn [String.append has_char]. rewrite (Ascii.eqb_sym "," c), (Ascii.eqb_sym "." c).
      apply orb_true_iff in Ec as [Ec|Ec]; rewrite Ec; [reflexivity|].
      rewrite !orb_true_r. reflexivity.
    - cbn [String.append has_char].
      apply orb_true_iff in IH as [IH|IH]; rewrite IH; rewrite ?orb_true_r; reflexivity. }
  rewrite Ht. apply G.
Qed.

Lemma search_decimal_sep s m :
  search_decimal s = Some m -> has_char "," s || has_char "." s = true.
Proof.
  induction s as [|a r IH]; cbn [search_decimal].
  - destruct (match_decimal_at EmptyString) eqn:E; [|discriminate].
    intros _. exact (match_decimal_at_sep _ _ E).
  - destruct (match_decimal_at (String a r)) eqn:E; [intros _; exact (match_decimal_at_sep _ _ E)|].
    intros H. specialize (IH H). cbn [has_char].
    apply orb_true_iff in IH as [IH|IH]; rewrite IH; rewrite ?orb_true_r; reflexivity.
Qed.

Lemma digit_run_digits t : all_digits (digit_run t) = true.
Proof.
  unfold all_digits. induction t as [|d r IH]; [reflexivity|].
  cbn [digit_run]. destruct (is_digit d) eqn:E; [|reflexivity].
  cbn [list_ascii_of_string forallb]. rewrite E, IH. reflexivity.
Qed.

Lemma search_digits_digits s g : search_digits s = Some g -> all_digits g = true.
Proof.
  induction s as [|a r IH]; cbn [search_digits]; [discriminate|].
  destruct (is_digit a); [intros H; injection H as <-; exact (digit_run_digits (String a r)) | exact IH].
Qed.

Lemma py_int_nonneg g n : py_int g = Some n -> (0 <= n)%Z.
Proof.
  unfold py_int. destruct (_ =? 0)%nat; [discriminate|].
  destruct (all_digits g); [|discriminate]. intros H; injection H as <-.
  apply digits_value_acc_nonneg. lia.
Qed.

Lemma extract_rating_integer_match t v :
  match search_digits t with
  | Some g =>
      match py_int g with
      | Some rating => if (rating <=? 5)%Z then Some (inject_Z rating) else None
      | None => None
      end
  | None => None
  end = Some v -> 0 <= v <= 5.
Proof.
  destruct (search_digits t) as [g|]; [|discriminate].
  destruct (py_int g) as [n|] eqn:En; [|discriminate].
  destruct (n <=? 5)%Z eqn:E5; [|discriminate]. intros H; injection H as <-.
  apply Z.leb_le in E5. pose proof (py_int_nonneg _ _ En).
  split; [change 0 with (inject_Z 0) | change 5 with (inject_Z 5)]; rewrite <- Zle_Qle; lia.
Qed.

Lemma extract_rating_integer_whole t v :
  match search_digits t with
  | Some g =>
      match py_int g with
      | Some rating => if (rating <=? 5)%Z then Some (inject_Z rating) else None
      | None => None
      end
  | None => None
  end = Some v -> exists n : Z, v = inject_Z n /\ (0 <= n <= 5)%Z.
Proof.
  destruct (search_digits t) as [g|]; [|discriminate].
  destruct (py_int g) as [n|] eqn:En; [|discriminate].
  destruct (n <=? 5)%Z eqn:E5; [|discriminate]. intros H; injection H as <-.
  apply Z.leb_le in E5. pose proof (py_int_nonneg _ _ En).
  exists n. split; [reflexivity | lia].
Qed.

(** X21: on a text with no ',' and no '.', a rating, when found, is a
    whole number in [0, 5]. *)
Theorem extract_rating_whole_number_bound (text : string) (v : Q) :
  has_char "," text = false -> has_char "." text = false ->
  extract_rating text = Some v -> exists n : Z, v = inject_Z n /\ (0 <= n <= 5)%Z.
Proof.
  intros Hc Hd. unfold extract_rating.
  destruct (String.length text =? 0)%nat; [discriminate|].
  destruct (search_decimal text) as [g|] eqn:Es.
  { apply search_decimal_sep in Es. rewrite Hc, Hd in Es. discriminate. }
  apply extract_rating_integer_whole.
Qed.

Lemma extract_rating_whole_number_bound_witness :
  has_char "," "4 estrelas" = false /\ has_char "." "4 estrelas" = false /\
  extract_rating "4 estrelas" = Some 4 /\
  exists n : Z, 4 = inject_Z n /\ (0 <= n <= 5)%Z.
Proof.
  assert (H1 : has_char "," "4 estrelas" = false) by reflexivity.
  assert (H2 : has_char "." "4 estrelas" = false) by reflexivity.
  assert (H3 : extract_rating "4 estrelas" = Some 4) by reflexivity.
  split; [exact H1 | split; [exact H2 | split; [exact H3 |]]].
  exact (extract_rating_whole_number_bound _ _ H1 H2 H3).
Defined.

(** X22: a rating is never negative. *)
Theorem extract_rating_nonneg (text : string) (v : Q) :
  extract_rating text = Some v -> 0 <= v.
Proof.
  unfold extract_rating. destruct (String.length text =? 0)%nat; [discriminate|].
  intros H.
  destruct (search_decimal text) as [g|];
    [destruct (py_float (replace_char "," "." g)) as [w|] eqn:Ef|].
  - injection H as <-. exact (py_float_nonneg _ _ Ef).
  - exact (proj1 (extract_rating_integer_match _ _ H)).
  - exact (proj1 (extract_rating_integer_match _ _ H)).
Qed.

Lemma extract_rating_nonneg_witness :
  extract_rating "-4,5 estrelas" = Some (45 # 10) /\ 0 <= 45 # 10.
Proof.
  assert (H : extract_rating "-4,5 estrelas" = Some (45 # 10)) by reflexivity.
  split; [exact H |]. exact (extract_rating_nonneg _ _ H).
Defined.

Lemma digit_run_app a c t :
  all_digits a = true -> is_digit c = false -> digit_run (a ++ String c t) = a.
Proof.
  unfold all_digits. intros Ha Hc. induction a as [|d a IH].
  - cbn. rewrite Hc. reflexivity.
  - cbn [list_ascii_of_string forallb] in Ha. apply andb_true_iff in Ha as [Hd Ha].
    cbn [String.append digit_run]. rewrite Hd, (IH Ha). reflexivity.
Qed.

Lemma digit_run_all b : all_digits b = true -> digit_run b = b.
Proof.
  unfold all_digits. induction b as [|d b IH]; intros H; [reflexivity|].
  cbn [list_ascii_of_string forallb] in H. apply andb_true_iff in H as [Hd H].
  cbn [digit_run]. rewrite Hd, (IH H). reflexivity.
Qed.

Lemma replace_char_digits a : all_digits a = true -> replace_char "," "." a = a.
Proof.
  unfold all_digits. induction a as [|d a IH]; intros H; [reflexivity|].
  cbn [list_ascii_of_string forallb] in H. apply andb_true_iff in H as [Hd H].
  cbn [replace_char]. rewrite (IH H).
  destruct (Ascii.eqb "," d) eqn:E; [|reflexivity].
  apply Ascii.eqb_eq in E. subst. discriminate.
Qed.

Lemma split_char_dot a b :
  has_char "." a = false -> has_char "." b = false ->
  split_char "." (a ++ String "." b) = [a; b].
Proof.
  intros Ha Hb. induction a as [|d a IH].
  - cbn [String.append split_char]. rewrite Ascii.eqb_refl, (split_char_absent _ _ Hb).
    reflexivity.
  - cbn [has_char] in Ha. apply orb_false_iff in Ha as [Hd Ha].
    cbn [String.append split_char]. rewrite Hd, (IH Ha). reflexivity.
Qed.

(** X23: a decimal number written with ',' or '.' is returned as written,
    whatever its size: the 0-5 range is checked only on the whole-number
    path. *)
Theorem extract_rating_decimal (a b : string) (sep : ascii) :
  all_digits a = true -> all_digits b = true ->
  a <> EmptyString -> b <> EmptyString -> sep = ","%char \/ sep = "."%char ->
  extract_rating (a ++ String sep b) =
  Some (Qmake (digits_value (a ++ b)) (Pos.of_nat (10 ^ String.length b))).
Proof.
  intros Ha Hb Hane Hbne Hsep.
  assert (Hsd : is_digit sep = false) by (destruct Hsep as [->| ->]; reflexivity).
  assert (Hla : (String.length a =? 0)%nat = false) by (destruct a; [congruence | reflexivity]).
  assert (Hlb : (String.length b =? 0)%nat = false) by (destruct b; [congruence | reflexivity]).
  assert (Hm : match_decimal_at (a ++ String sep b) = Some (a ++ String sep b)).
  { unfold match_decimal_at. rewrite (digit_run_app _ _ _ Ha Hsd), Hla, drop_str_app.
    assert (Hs : Ascii.eqb sep "," || Ascii.eqb sep "." = true)
      by (destruct Hsep as [->| ->]; reflexivity).
    rewrite Hs, (digit_run_all _ Hb), Hlb. reflexivity. }
  unfold extract_rating.
  assert (Hl : (String.length (a ++ String sep b) =? 0)%nat = false)
    by (rewrite string_length_app; destruct a; [congruence | reflexivity]).
  rewrite Hl.
  assert (Hsearch : search_decimal (a ++ String sep b) = Some (a ++ String sep b)).
  { destruct (a ++ String sep b) eqn:E; cbn [search_decimal]; rewrite Hm; reflexivity. }
  rewrite Hsearch.
  assert (Hr : replace_char "," "." (a ++ String sep b) = a ++ String "." b).
  { clear - Ha Hb Hsep. induction a as [|d a IH].
    - cbn [String.append replace_char]. rewrite (replace_char_digits _ Hb).
      destruct Hsep as [->| ->]; reflexivity.
    - unfold all_digits in Ha. cbn [list_ascii_of_string forallb] in Ha.
      apply andb_true_iff in Ha as [Hd Ha].
      cbn [String.append replace_char]. rewrite (IH Ha).
      destruct (Ascii.eqb "," d) eqn:E; [|reflexivity].
      apply Ascii.eqb_eq in E. subst. discriminate. }
  rewrite Hr. unfold py_float.
  rewrite (split_char_dot _ _ (all_digits_no_dot _ Ha) (all_digits_no_dot _ Hb)), Ha, Hb.
  assert (Hsum : (String.length a + String.length b =? 0)%nat = false).
  { apply Nat.eqb_neq. apply Nat.eqb_neq in Hla. lia. }
  rewrite Hsum. reflexivity.
Qed.

Lemma extract_rating_decimal_witness :
  all_digits "10" = true /\ all_digits "5" = true /\
  "10" <> EmptyString /\ "5" <> EmptyString /\
  (","%char = ","%char \/ ","%char = "."%char) /\
  extract_rating ("10" ++ String "," "5")
  = Some (Qmake (digits_value ("10" ++ "5")) (Pos.of_nat (10 ^ String.length "5"))).
Proof.
  assert (H1 : all_digits "10" = true) by reflexivity.
  assert (H2 : all_digits "5" = true) by reflexivity.
  assert (H3 : "10" <> EmptyString) by discriminate.
  assert (H4 : "5" <> EmptyString) by discriminate.
  assert (H5 : ","%char = ","%char \/ ","%char = "."%char) by (left; reflexivity).
  exact (conj H1 (conj H2 (conj H3 (conj H4 (conj H5
    (extract_rating_decimal "10" "5" ","%char H1 H2 H3 H4 H5)))))).
Defined.

(** ** [PlaywrightEngine._filter_relevant_products] (playwright_engine.py
    430-458) *)

(** The code of the first byte of a string, 256 when it is empty. *)
Definition hd_code (s : string) : nat :=
  match s with
  | EmptyString => 256
  | String a _ => char_code a
  end.

Definition tl_str (s : string) : string :=
  match s with
  | EmptyString => EmptyString
  | String _ r => r
  end.

(** The length of a multi-byte whitespace character of [str.isspace()],
    given the codes of its first three bytes: U+0085 and U+00A0 (2 bytes),
    U+1680, U+2000-U+200A, U+2028, U+2029, U+202F, U+205F and U+3000
    (3 bytes); 0 for anything else. *)
Definition ws_pat (n m k : nat) : nat :=
  if ((n =? 194) && ((m =? 133) || (m =? 160)))%nat then 2
  else if (((n =? 225) && (m =? 154) && (k =? 128))
       || ((n =? 226) && (m =? 128)
           && (((128 <=? k) && (k <=? 138)) || (k =? 168) || (k =? 169) || (k =? 175)))
       || ((n =? 226) && (m =? 129) && (k =? 159))
       || ((n =? 227) && (m =? 128) && (k =? 128)))%nat
  then 3 else 0.

(** The length in bytes of the whitespace character at the start of a
    UTF-8 string (the ASCII ones of [is_py_space] or a multi-byte one of
    [ws_pat]), 0 if it does not start with one. *)
Definition ws_len (s : string) : nat :=
  match s with
  | EmptyString => 0
  | String a r =>
      if is_py_space a then 1 else ws_pat (char_code a) (hd_code r) (hd_code (tl_str r))
  end.

(** [s.split()] on the bytes of a UTF-8 string: the maximal runs of
    non-whitespace characters.  The first byte of a whitespace character
    is never a continuation byte, so a whitespace character is only
    recognised at a character boundary.  [skip] counts the bytes still to
    come of the whitespace character being skipped; the helper returns the
    run before the first whitespace character and the words after it. *)
Fixpoint split_ws_aux (skip : nat) (s : string) : string * list string :=
  match s with
  | EmptyString => (EmptyString, [])
  | String c r =>
      match match skip with O => ws_len s | S _ => skip end with
      | O => let '(w, ws) := split_ws_aux O r in (String c w, ws)
      | S k =>
          let '(w, ws) := split_ws_aux k r in
          (EmptyString, if (String.length w =? 0)%nat then ws else w :: ws)
      end
  end.

Definition py_split (s : string) : list string :=
  let '(w, ws) := split_ws_aux 0 s in
  if (String.length w =? 0)%nat then ws else w :: ws.

(** Whether a string is made of whitespace characters only (true on the
    empty string, unlike [str.isspace()]). *)
Fixpoint all_ws_aux (skip : nat) (s : string) : bool :=
  match s with
  | EmptyString => true
  | String _ r =>
      match match skip with O => ws_len s | S _ => skip end with
      | O => false
      | S k => all_ws_aux k r
      end
  end.

Definition only_whitespace (s : string) : bool := all_ws_aux 0 s.


Definition nbsp : string := String (ascii_of_nat 194) (String (ascii_of_nat 160) EmptyString).

Example py_split_ex1 : py_split ("Capa" ++ nbsp ++ " iPhone  13" ++ nbsp) = ["Capa"; "iPhone"; "13"].
Proof. vm_compute. reflexivity. Qed.

(** The acceptance test of one product, given its lower-cased name;
    [matches / len(search_words) >= 0.5] is compared exactly (for fewer
    than 2^53 words the float quotient is on the same side of 0.5). *)
Definition is_relevant (search_term : string) (search_words : list string)
    (product_name : string) : bool :=
  let matches := length (filter (fun word => str_contains word product_name) search_words) in
  Qle_bool (1 # 2) (inject_Z (Z.of_nat matches) / inject_Z (Z.of_nat (length search_words)))
  || str_contains (py_lower search_term) product_name
  || match search_words with
     | word0 :: _ => str_contains word0 product_name
     | [] => false
     end.

(** The loop over the products; [None] is the [ZeroDivisionError] of
    [matches / len(search_words)] on a term without words. *)
Fixpoint filter_relevant_loop (search_term : string) (search_words : list string)
    (products : list Product) : option (list Product) :=
  match products with
  | [] => Some []
  | product :: rest =>
      if (String.length (name product) =? 0)%nat
      then filter_relevant_loop search_term search_words rest
      else
        match search_words with
        | [] => None
        | _ :: _ =>
            match filter_relevant_loop search_term search_words rest with
            | None => None
            | Some kept =>
                Some (if is_relevant search_term search_words (py_lower (name product))
                      then product :: kept else kept)
            end
        end
  end.

Definition filter_relevant_products (products : list Product) (search_term : string)
  : option (list Product) :=
  if (String.length search_term =? 0)%nat then Some products
  else filter_relevant_loop search_term (py_split (py_lower search_term)) products.

Lemma filter_relevant_loop_idem t ws ps r :
  filter_relevant_loop t ws ps = Some r -> filter_relevant_loop t ws r = Some r.
Proof.
  revert r; induction ps as [|p rest IH]; intros r; cbn [filter_relevant_loop].
  - intros H; injection H as <-. reflexivity.
  - destruct (String.length (name p) =? 0)%nat eqn:En; [apply IH|].
    destruct ws as [|w ws']; [discriminate|].
    destruct (filter_relevant_loop t (w :: ws') rest) as [kept|] eqn:Ek; [|discriminate].
    intros H; injection H as <-.
    destruct (is_relevant t (w :: ws') (py_lower (name p))) eqn:Er; [|exact (IH _ eq_refl)].
    cbn [filter_relevant_loop]. rewrite En, (IH _ eq_refl), Er. reflexivity.
Qed.

(** X24: filtering is idempotent: the products kept for a search term are
    all kept again when filtered with the same term. *)
Theorem filter_relevant_products_idempotent (products kept : list Product) (search_term : string) :
  filter_relevant_products products search_term = Some kept ->
  filter_relevant_products kept search_term = Some kept.
Proof.
  unfold filter_relevant_products.
  destruct (String.length search_term =? 0)%nat; [congruence|].
  apply filter_relevant_loop_idem.
Qed.

Definition tv_product : Product := product_args "Smart TV LED 50 polegadas" (Some 2500) None 0.
Definition case_product : Product := product_args "Capa para celular" (Some 30) None 0.

Lemma filter_relevant_products_idempotent_witness :
  filter_relevant_products [tv_product; case_product] "smart tv" = Some [tv_product] /\
  filter_relevant_products [tv_product] "smart tv" = Some [tv_product].
Proof.
  assert (H : filter_relevant_products [tv_product; case_product] "smart tv" = Some [tv_product])
    by (vm_compute; reflexivity).
  split; [exact H |]. exact (filter_relevant_products_idempotent _ _ _ H).
Defined.

Lemma split_all_ws k s :
  split_ws_aux k s = (EmptyString, []) <-> all_ws_aux k s = true.
Proof.
  revert k; induction s as [|c r IH]; intros k; [split; reflexivity|].
  assert (G : forall j, (let '(w, ws) := split_ws_aux j r in
                         (EmptyString, if (String.length w =? 0)%nat then ws else w :: ws))
                        = (EmptyString, []) <-> all_ws_aux j r = true).
  { intros j. rewrite <- IH. destruct (split_ws_aux j r) as [[|x w] ws]; cbn [String.length Nat.eqb].
    - reflexivity.
    - split; intros H; inversion H. }
  destruct k as [|k]; cbn [split_ws_aux all_ws_aux]; [|apply G].
  destruct (ws_len (String c r)) as [|j]; [|apply G].
  destruct (split_ws_aux 0 r). split; intros H; inversion H.
Qed.

Lemma py_split_nil s : py_split s = [] <-> only_whitespace s = true.
Proof.
  unfold py_split, only_whitespace. rewrite <- split_all_ws.
  destruct (split_ws_aux 0 s) as [[|x w] ws]; cbn [String.length Nat.eqb].
  - split; [intros ->; reflexivity | intros H; injection H as ->; reflexivity].
  - split; intros H; inversion H.
Qed.

Lemma hd_code_py_lower t :
  hd_code (py_lower t) = hd_code t \/ (hd_code t < 128 /\ hd_code (py_lower t) < 128)%nat.
Proof.
  destruct t as [|b t]; [left; reflexivity|].
  destruct (py_lower_head b t) as (b' & t' & E & [->|[Hr Hc]]); rewrite E; cbn [hd_code];
    [left; reflexivity | right; lia].
Qed.

Lemma ws_pat_small n m k : (m < 128 \/ 160 < m)%nat -> ws_pat n m k = 0%nat.
Proof.
  intros Hm. unfold ws_pat.
  assert (E1 : (m =? 133)%nat = false) by (apply Nat.eqb_neq; lia).
  assert (E2 : (m =? 160)%nat = false) by (apply Nat.eqb_neq; lia).
  assert (E3 : (m =? 154)%nat = false) by (apply Nat.eqb_neq; lia).
  assert (E4 : (m =? 128)%nat = false) by (apply Nat.eqb_neq; lia).
  assert (E5 : (m =? 129)%nat = false) by (apply Nat.eqb_neq; lia).
  rewrite E1, E2, E3, E4, E5.
  destruct (n =? 194)%nat, (n =? 225)%nat, (n =? 226)%nat, (n =? 227)%nat; reflexivity.
Qed.

Lemma ws_pat_k n m k k' :
  (k < 128 \/ 175 < k)%nat -> (k' < 128 \/ 175 < k')%nat -> ws_pat n m k = ws_pat n m k'.
Proof.
  intros Hk Hk'. unfold ws_pat.
  assert (F : forall x, (x < 128 \/ 175 < x)%nat ->
             (x =? 128)%nat = false /\ ((128 <=? x) && (x <=? 138))%nat = false /\
             (x =? 168)%nat = false /\ (x =? 169)%nat = false /\ (x =? 175)%nat = false /\
             (x =? 159)%nat = false).
  { intros x Hx. repeat split; try (apply Nat.eqb_neq; lia).
    apply andb_false_iff. destruct Hx; [left | right]; apply Nat.leb_gt; lia. }
  destruct (F k Hk) as (A1 & A2 & A3 & A4 & A5 & A6).
  destruct (F k' Hk') as (B1 & B2 & B3 & B4 & B5 & B6).
  rewrite A1, A2, A3, A4, A5, A6, B1, B2, B3, B4, B5, B6. reflexivity.
Qed.

Lemma ws_pat_lead n m k :
  (n < 194 \/ (195 <= n <= 224) \/ 227 < n)%nat -> ws_pat n m k = 0%nat.
Proof.
  intros Hn. unfold ws_pat.
  assert (E1 : (n =? 194)%nat = false) by (apply Nat.eqb_neq; lia).
  assert (E2 : (n =? 225)%nat = false) by (apply Nat.eqb_neq; lia).
  assert (E3 : (n =? 226)%nat = false) by (apply Nat.eqb_neq; lia).
  assert (E4 : (n =? 227)%nat = false) by (apply Nat.eqb_neq; lia).
  rewrite E1, E2, E3, E4. reflexivity.
Qed.

Lemma is_py_space_high a : (33 <= char_code a)%nat -> is_py_space a = false.
Proof.
  intros H. unfold is_py_space.
  apply orb_false_iff; split; apply andb_false_iff; right; apply Nat.leb_gt; lia.
Qed.

Lemma ws_len_zero a r :
  (33 <= char_code a < 194 \/ 195 <= char_code a <= 224)%nat -> ws_len (String a r) = 0%nat.
Proof.
  intros H. cbn [ws_len]. rewrite is_py_space_high by lia. apply ws_pat_lead. lia.
Qed.

Lemma ws_len_cons_lower a r : ws_len (String a (py_lower r)) = ws_len (String a r).
Proof.
  cbn [ws_len]. destruct (is_py_space a); [reflexivity|].
  destruct (hd_code_py_lower r) as [Eh|[H1 H2]].
  2: { rewrite (ws_pat_small _ (hd_code (py_lower r))) by lia.
       rewrite (ws_pat_small _ (hd_code r)) by lia. reflexivity. }
  rewrite Eh. destruct r as [|b r1]; [reflexivity|]. cbn [hd_code tl_str] in *.
  assert (Hb : (char_code b < 128 \/ 160 < char_code b)%nat \/ (128 <= char_code b <= 160)%nat)
    by lia.
  destruct Hb as [Hb|Hb]; [rewrite !(ws_pat_small _ (char_code b)) by exact Hb; reflexivity|].
  rewrite (py_lower_other b r1).
  2: { apply andb_false_iff; right; apply Nat.leb_gt; lia. }
  2: { apply Nat.eqb_neq; lia. }
  cbn [tl_str].
  destruct (hd_code_py_lower r1) as [E1|[H1 H2]]; [rewrite E1; reflexivity | apply ws_pat_k; lia].
Qed.

Lemma all_ws_py_lower k s : all_ws_aux k (py_lower s) = all_ws_aux k s.
Proof.
  revert k.
  assert (G : forall n s k, (String.length s <= n)%nat ->
                            all_ws_aux k (py_lower s) = all_ws_aux k s).
  { induction n as [|n IH]; intros [|a r] k Hl; cbn [String.length] in Hl;
      try reflexivity; [lia|].
    destruct ((65 <=? char_code a) && (char_code a <=? 90))%nat eqn:Ea.
    - rewrite (py_lower_cap _ _ Ea).
      apply andb_true_iff in Ea as [E1 E2]. apply Nat.leb_le in E1, E2.
      destruct k as [|k]; cbn [all_ws_aux]; [|apply IH; lia].
      rewrite !ws_len_zero; [reflexivity | lia |].
      rewrite char_code_of_nat; lia.
    - destruct (char_code a =? 195)%nat eqn:E195.
      + pose proof E195 as H195. apply Nat.eqb_eq in H195.
        destruct r as [|b r']; [rewrite (py_lower_195_nil _ Ea E195); reflexivity|].
        destruct ((128 <=? char_code b) && (char_code b <=? 158) && negb (char_code b =? 151))%nat
          eqn:Eb.
        * rewrite (py_lower_195_in _ _ _ Ea E195 Eb).
          apply andb_true_iff in Eb as [Eb _]. apply andb_true_iff in Eb as [Eb1 Eb2].
          apply Nat.leb_le in Eb1, Eb2.
          destruct k as [|k]; cbn [all_ws_aux]; [rewrite !ws_len_zero by lia; reflexivity|].
          destruct k as [|k]; cbn [all_ws_aux].
          -- rewrite !ws_len_zero; [reflexivity | lia |].
             rewrite char_code_of_nat; lia.
          -- cbn [String.length] in Hl. apply IH; lia.
        * rewrite (py_lower_195 _ _ _ Ea E195 Eb).
          destruct k as [|k]; cbn [all_ws_aux]; [rewrite !ws_len_zero by lia; reflexivity|].
          apply IH; lia.
      + rewrite (py_lower_other _ _ Ea E195).
        destruct k as [|k]; cbn [all_ws_aux]; [|apply IH; lia].
        rewrite ws_len_cons_lower.
        destruct (ws_len (String a r)) as [|j]; [reflexivity | apply IH; lia]. }
  intros k. apply (G (String.length s)). lia.
Qed.

Lemma filter_relevant_loop_none t ws ps :
  filter_relevant_loop t ws ps = None <->
  ws = [] /\ exists p, In p ps /\ name p <> EmptyString.
Proof.
  induction ps as [|p rest IH]; cbn [filter_relevant_loop].
  - split; [discriminate | intros (_ & p & [] & _)].
  - destruct (String.length (name p) =? 0)%nat eqn:En.
    + rewrite IH. split.
      * intros (Hw & q & Hq & Hn). split; [exact Hw|]. exists q. split; [right; exact Hq | exact Hn].
      * intros (Hw & q & [Hq|Hq] & Hn); [|split; [exact Hw | exists q; auto]].
        subst q. destruct (name p); [congruence | discriminate].
    + destruct ws as [|w ws'].
      * split; [|reflexivity]. intros _. split; [reflexivity|].
        exists p. split; [left; reflexivity|]. intros Hp. rewrite Hp in En. discriminate.
      * destruct (filter_relevant_loop t (w :: ws') rest) eqn:Ek.
        -- split; [discriminate | intros [Hw _]; discriminate].
        -- destruct (proj1 IH eq_refl) as [Hw _]. discriminate.
Qed.

(** X25: filtering raises [ZeroDivisionError] exactly when the search term
    is non-empty but made only of whitespace characters (ASCII or Unicode,
    as [str.split()] sees them) and some product has a non-empty name. *)
Theorem filter_relevant_products_error_iff (products : list Product) (search_term : string) :
  filter_relevant_products products search_term = None <->
  search_term <> EmptyString /\
  only_whitespace search_term = true /\
  exists p, In p products /\ name p <> EmptyString.
Proof.
  unfold filter_relevant_products.
  destruct (String.length search_term =? 0)%nat eqn:E0.
  - split; [discriminate|]. intros [Hne _]. destruct search_term; [congruence | discriminate].
  - rewrite filter_relevant_loop_none, py_split_nil. unfold only_whitespace.
    rewrite all_ws_py_lower.
    split.
    + intros [Hs Hp]. split; [|split; [exact Hs | exact Hp]].
      intros ->. discriminate.
    + intros (_ & Hs & Hp). split; assumption.
Qed.




Example filter_relevant_products_nbsp_term :
  filter_relevant_products [tv_product] nbsp = None.
Proof. vm_compute. reflexivity. Qed.

(** ** [PlaywrightEngine._find_category_id] (playwright_engine.py 495-535) *)

(** [ScraperConfig.CATEGORIES] (config.py 23-36), in dict order. *)
Definition CATEGORIES : list (string * string) := [
  ("Eletrônicos, Áudio e Vídeo", "MLB1000");
  ("Celulares e Telefones", "MLB1055");
  ("Informática", "MLB1648");
  ("Casa, Móveis e Decoração", "MLB1574");
  ("Eletrodomésticos e Casa", "MLB1556");
  ("Roupas e Calçados", "MLB1430");
  ("Esportes e Fitness", "MLB1276");
  ("Livros, Revistas e Comics", "MLB3025");
  ("Saúde e Beleza", "MLB263532");
  ("Games", "MLB1144");
  ("Carros, Motos e Outros", "MLB1743");
  ("Relógios e Joias", "MLB1137")
].

(** The [category_mappings] of [_find_category_id]. *)
Definition category_mappings : list (string * string) := [
  ("eletronicos", "Eletrônicos, Áudio e Vídeo");
  ("celulares", "Celulares e Telefones");
  ("informatica", "Informática");
  ("casa", "Casa, Móveis e Decoração");
  ("eletrodomesticos", "Eletrodomésticos e Casa");
  ("moda", "Roupas e Calçados");
  ("esportes", "Esportes e Fitness");
  ("livros", "Livros, Revistas e Comics");
  ("beleza", "Saúde e Beleza");
  ("games", "Games");
  ("automotivo", "Carros, Motos e Outros");
  ("relogios", "Relógios e Joias")
].

(** Second step: the first category whose lower-cased name equals the
    lower-cased argument. *)
Fixpoint find_category_ci (category : string) (cats : list (string * string)) : option string :=
  match cats with
  | [] => None
  | (cat_name, cat_id) :: rest =>
      if String.eqb (py_lower cat_name) (py_lower category) then Some cat_id
      else find_category_ci category rest
  end.

(** Fourth step: the first category whose lower-cased name contains one of
    the words. *)
Fixpoint find_category_partial (words : list string) (cats : list (string * string))
  : option string :=
  match cats with
  | [] => None
  | (cat_name, cat_id) :: rest =>
      if existsb (fun word => str_contains word (py_lower cat_name)) words then Some cat_id
      else find_category_partial words rest
  end.

Definition find_category_id (category : string) : option string :=
  if (String.length category =? 0)%nat then None
  else
    match assoc_get category CATEGORIES with
    | Some cat_id => Some cat_id
    | None =>
        match find_category_ci category CATEGORIES with
        | Some cat_id => Some cat_id
        | None =>
            let category_lower := py_lower category in
            match assoc_get category_lower category_mappings with
            | Some real_name => assoc_get real_name CATEGORIES
            | None => find_category_partial (py_split category_lower) CATEGORIES
            end
        end
    end.

(** The first URL of a category listing, [f"{BASE_URL}/c/{category_id}"];
    later pages append ["#D[A:<offset>]"]. *)
Definition category_url (category_id : string) : string := BASE_URL ++ "/c/" ++ category_id.

Lemma assoc_get_in_values {A : Type} k (l : list (string * A)) v :
  assoc_get k l = Some v -> In v (map snd l).
Proof.
  induction l as [|[k' v'] rest IH]; cbn [assoc_get map snd]; [discriminate|].
  destruct (String.eqb k k'); [intros H; injection H as <-; left; reflexivity|].
  intros H; right; exact (IH H).
Qed.

Lemma find_category_ci_in c l v : find_category_ci c l = Some v -> In v (map snd l).
Proof.
  induction l as [|[k' v'] rest IH]; cbn [find_category_ci map snd]; [discriminate|].
  destruct (String.eqb _ _); [intros H; injection H as <-; left; reflexivity|].
  intros H; right; exact (IH H).
Qed.

Lemma find_category_partial_in ws l v : find_category_partial ws l = Some v -> In v (map snd l).
Proof.
  induction l as [|[k' v'] rest IH]; cbn [find_category_partial map snd]; [discriminate|].
  destruct (existsb _ _); [intros H; injection H as <-; left; reflexivity|].
  intros H; right; exact (IH H).
Qed.

Lemma find_category_id_in category cid :
  find_category_id category = Some cid -> In cid (map snd CATEGORIES).
Proof.
  unfold find_category_id.
  destruct (String.length category =? 0)%nat; [discriminate|].
  destruct (assoc_get category CATEGORIES) as [v|] eqn:E1.
  { intros H; injection H as <-. exact (assoc_get_in_values _ _ _ E1). }
  destruct (find_category_ci category CATEGORIES) as [v|] eqn:E2.
  { intros H; injection H as <-. exact (find_category_ci_in _ _ _ E2). }
  cbv zeta. destruct (assoc_get (py_lower category) category_mappings).
  - apply assoc_get_in_values.
  - apply find_category_partial_in.
Qed.

(** An exact key of [CATEGORIES] is also found by the case-insensitive
    step: no two names of [CATEGORIES] have the same lower-cased form. *)
Lemma find_category_ci_exact category cid :
  assoc_get category CATEGORIES = Some cid -> find_category_ci category CATEGORIES = Some cid.
Proof.
  unfold CATEGORIES. cbn [assoc_get].
  repeat match goal with
  | |- context [String.eqb category ?k] =>
      let E := fresh "E" in
      destruct (String.eqb category k) eqn:E;
      [apply String.eqb_eq in E; subst category; intros H; injection H as <-;
       vm_compute; reflexivity | ]
  end.
  intros H; simpl in H; discriminate H.
Qed.

Lemma find_category_ci_lower c1 c2 l :
  py_lower c1 = py_lower c2 -> find_category_ci c1 l = find_category_ci c2 l.
Proof.
  intros H. induction l as [|[k v] rest IH]; cbn [find_category_ci]; [reflexivity|].
  rewrite H, IH. reflexivity.
Qed.

Lemma find_category_id_ci category :
  find_category_id category =
  if (String.length category =? 0)%nat then None
  else
    match find_category_ci category CATEGORIES with
    | Some cat_id => Some cat_id
    | None =>
        match assoc_get (py_lower category) category_mappings with
        | Some real_name => assoc_get real_name CATEGORIES
        | None => find_category_partial (py_split (py_lower category)) CATEGORIES
        end
    end.
Proof.
  unfold find_category_id.
  destruct (String.length category =? 0)%nat; [reflexivity|].
  destruct (assoc_get category CATEGORIES) as [v|] eqn:E; [|reflexivity].
  rewrite (find_category_ci_exact _ _ E). reflexivity.
Qed.

Lemma find_category_id_lower_eq c1 c2 :
  py_lower c1 = py_lower c2 -> find_category_id c1 = find_category_id c2.
Proof.
  intros H. rewrite !find_category_id_ci.
  rewrite <- (py_lower_length c1), <- (py_lower_length c2), H.
  rewrite (find_category_ci_lower c1 c2 _ H). reflexivity.
Qed.

(** X28: the lookup of a category id ignores letter case: two arguments
    with the same lower-cased form get the same id. *)
Theorem find_category_id_case_insensitive (c1 c2 : string) :
  py_lower c1 = py_lower c2 -> find_category_id c1 = find_category_id c2.
Proof. apply find_category_id_lower_eq. Qed.

Lemma find_category_id_case_insensitive_witness :
  py_lower "GAMES" = py_lower "games" /\
  find_category_id "GAMES" = Some "MLB1144" /\ find_category_id "games" = Some "MLB1144".
Proof.
  assert (H : py_lower "GAMES" = py_lower "games") by (vm_compute; reflexivity).
  assert (H2 : find_category_id "games" = Some "MLB1144") by (vm_compute; reflexivity).
  exact (conj H (conj (eq_trans (find_category_id_case_insensitive _ _ H) H2) H2)).
Defined.

(** X29: a name of [CATEGORIES], written in any letter case, is mapped to
    its own category id. *)
Theorem find_category_id_known (category cat_name cid : string) :
  In (cat_name, cid) CATEGORIES -> py_lower category = py_lower cat_name ->
  find_category_id category = Some cid.
Proof.
  intros Hin Hl. rewrite (find_category_id_lower_eq _ _ Hl).
  unfold CATEGORIES in Hin. cbn [In] in Hin.
  repeat destruct Hin as [Hin|Hin]; try (injection Hin as <- <-; vm_compute; reflexivity).
  destruct Hin.
Qed.

Lemma find_category_id_known_witness :
  In ("Informática", "MLB1648") CATEGORIES /\
  py_lower "INFORMÁTICA" = py_lower "Informática" /\
  find_category_id "INFORMÁTICA" = Some "MLB1648".
Proof.
  assert (H1 : In ("Informática", "MLB1648") CATEGORIES) by (right; right; left; reflexivity).
  assert (H2 : py_lower "INFORMÁTICA" = py_lower "Informática") by (vm_compute; reflexivity).
  exact (conj H1 (conj H2 (find_category_id_known _ _ _ H1 H2))).
Defined.

Lemma search_category_id_skip a r :
  String.prefix "/c/MLB" (String a r) = false ->
  search_category_id (String a r) = search_category_id r.
Proof. intros H. cbn [search_category_id]. rewrite H. reflexivity. Qed.

Lemma search_category_id_at a r :
  String.prefix "/c/MLB" (String a r) = true ->
  search_category_id (String a r) =
  if (String.length (digit_run (drop_str 6 (String a r))) =? 0)%nat then search_category_id r
  else Some ("MLB" ++ digit_run (drop_str 6 (String a r))).
Proof. intros H. cbn [search_category_id]. rewrite H. reflexivity. Qed.

Lemma search_category_id_base v : search_category_id (BASE_URL ++ v) = search_category_id v.
Proof.
  unfold BASE_URL. cbn [String.append].
  repeat (rewrite search_category_id_skip; [|reflexivity]). reflexivity.
Qed.

Lemma classify_by_url_category_page cid digits sfx cname :
  cid = "MLB" ++ digits -> all_digits digits = true -> digits <> EmptyString ->
  (sfx = EmptyString \/ exists c r, sfx = String c r /\ is_digit c = false) ->
  assoc_get cid ML_CATEGORY_IDS = Some cname -> cname <> EmptyString ->
  classify_by_url (category_url cid ++ sfx) = (Some cname, 1).
Proof.
  intros Hcid Hd Hne Hs Ha Hc. unfold classify_by_url, category_url.
  rewrite string_app_assoc, string_app_assoc, search_category_id_base.
  assert (Hsearch : search_category_id ("/c/" ++ cid ++ sfx) = Some cid).
  { subst cid. destruct digits as [|d0 ds0]; [congruence|].
    cbn [String.append]. rewrite search_category_id_at by reflexivity.
    pose proof (drop_str_app "/c/MLB" (String d0 ds0 ++ sfx)) as Hdrop.
    cbn [String.length String.append] in Hdrop. rewrite Hdrop.
    assert (Hrun : digit_run (String d0 ds0 ++ sfx) = String d0 ds0).
    { destruct Hs as [->|(c & r & -> & Hc')].
      - rewrite string_app_nil_r. exact (digit_run_all _ Hd).
      - exact (digit_run_app _ _ _ Hd Hc'). }
    cbn [String.append] in Hrun. rewrite Hrun. reflexivity. }
  rewrite Hsearch, Ha.
  destruct cname as [|x y]; [congruence|]. reflexivity.
Qed.

(** X27: the id found for a category names a category the URL classifier
    recognises: the listing URL built from it, alone or followed by a page
    suffix not starting with a digit, is classified with confidence 1 as the
    [CATEGORIES] name paired with that id. *)
Theorem find_category_id_url_classified (category cid : string) :
  find_category_id category = Some cid ->
  exists cname, In (cname, cid) CATEGORIES /\
  forall sfx, (sfx = EmptyString \/ exists c r, sfx = String c r /\ is_digit c = false) ->
  classify_by_url (category_url cid ++ sfx) = (Some cname, 1).
Proof.
  intros H. apply find_category_id_in in H.
  unfold CATEGORIES in H. cbn [map snd] in H.
  repeat destruct H as [<-|H]; [..| destruct H].
  all: match goal with
       | |- exists cname, In (cname, ?cid) _ /\ _ =>
           eexists; split;
           [ | intros sfx Hs;
               apply (classify_by_url_category_page cid (drop_str 3 cid) sfx);
               [reflexivity | reflexivity | vm_compute; discriminate | exact Hs
               | reflexivity | discriminate] ]
       end.
  all: unfold CATEGORIES; cbn [In]; repeat first [left; reflexivity | right].
Qed.

Lemma find_category_id_url_classified_witness :
  find_category_id "celulares" = Some "MLB1055" /\
  exists cname, In (cname, "MLB1055") CATEGORIES /\
  forall sfx, (sfx = EmptyString \/ exists c r, sfx = String c r /\ is_digit c = false) ->
  classify_by_url (category_url "MLB1055" ++ sfx) = (Some cname, 1).
Proof.
  assert (H : find_category_id "celulares" = Some "MLB1055") by (vm_compute; reflexivity).
  exact (conj H (find_category_id_url_classified _ _ H)).
Defined.
